(** * ICP library: point-to-plane error kernel and engine records

    A shallow embedding of
      - [src/icp/error_point_to_plane.cpp] (class [ErrorPointToPlane]) and
      - [include/icp/icp.hpp] (structs [IcpParameters_], [IcpResults_],
        class [Icp]),
    followed by the properties the specification states about them.

    The library is generic in its scalar type [Dtype] (instantiated at
    [float] and [double]).  The embedding is generic in the same way: the
    arithmetic is the interface [Scalar], so that every theorem holds for
    whatever the operations of the scalar type compute, rounding included.
    Two instances are given, the integers and the binary64 numbers of the
    kernel. *)

From Stdlib Require Import ZArith QArith Qround String Ascii.
From Stdlib Require Import PrimFloat.
From Stdlib Require Uint63.
From stdpp Require Import base list.

Local Open Scope nat_scope.

(** ** Scalars *)

(** The exact value of the decimal literal [mantissa e exponent] of the
    source text, as a fraction in lowest terms. *)
Definition decimal_literal (mantissa exponent : Z) : Q :=
  Qred (inject_Z mantissa * Qpower (inject_Z 10) exponent).

(** What the code needs of [Dtype]: conversion of an [int] and of a [double]
    literal, [std::numeric_limits<Dtype>::max()], the three arithmetic
    operators and the test behind Eigen's [allFinite]. *)
Class Scalar (Dtype : Type) := {
  of_int : Z → Dtype;
  of_double : Q → Dtype;
  numeric_limits_max : Dtype;
  add : Dtype → Dtype → Dtype;
  sub : Dtype → Dtype → Dtype;
  mul : Dtype → Dtype → Dtype;
  isfinite : Dtype → bool
}.

Declare Scope dtype_scope.
Delimit Scope dtype_scope with D.
Infix "+" := add : dtype_scope.
Infix "-" := sub : dtype_scope.
Infix "*" := mul : dtype_scope.

(** ** Faults

    The C++ code has no checked accesses.  The embedding makes each place
    where the source leaves the defined behaviour of the language or of
    Eigen an explicit fault. *)
Inductive fault :=
  | NullPointer      (* dereference of an empty shared pointer *)
  | OutOfRange       (* index outside a vector, a cloud or a matrix *)
  | BadDimension     (* an Eigen size assertion *)
  | Unrepresentable. (* a size the counter or variable type cannot hold *)

Inductive result (A : Type) :=
  | Ok (a : A)
  | Fault (f : fault).
Arguments Ok {A} a.
Arguments Fault {A} f.

#[export] Instance result_ret : MRet result := λ A a, Ok a.
#[export] Instance result_bind : MBind result := λ A B k m,
  match m with
  | Ok a => k a
  | Fault f => Fault f
  end.

#[export] Instance result_fmap : FMap result := λ A B g m,
  match m with
  | Ok a => Ok (g a)
  | Fault f => Fault f
  end.

(** A [boost::shared_ptr<T>]: [None] is the empty pointer, [Some t] a
    pointer whose pointee reads [t] when the method runs. *)
Definition Ptr (T : Type) : Type := option T.

Definition deref {T} (p : Ptr T) : result T :=
  match p with
  | Some t => Ok t
  | None => Fault NullPointer
  end.

(** [v[i]] on a [std::vector] or a [pcl::PointCloud]. *)
Definition at_index {T} (v : list T) (i : nat) : result T :=
  match v !! i with
  | Some t => Ok t
  | None => Fault OutOfRange
  end.

(** Integer widths of the platform the library is built for. *)
Definition INT_MAX : Z := 2147483647.
Definition UINT_MAX : Z := 4294967295.
Definition SIZE_MAX : Z := 18446744073709551615.

(** [const int n = v.size()], and a loop [for (int i = 0; i < v.size(); ++i)]:
    the [int] has to reach the size. A size above [INT_MAX] is a fault. *)
Definition int_of_size (n : nat) : result Z :=
  if decide (Z.of_nat n ≤ INT_MAX)%Z then Ok (Z.of_nat n) else Fault Unrepresentable.

(** A loop [for (unsigned int i = 0; i < v.size(); ++i)]: the counter wraps
    around before it reaches a size above [UINT_MAX]. *)
Definition unsigned_of_size (n : nat) : result Z :=
  if decide (Z.of_nat n ≤ UINT_MAX)%Z then Ok (Z.of_nat n) else Fault Unrepresentable.

(** [v.size() - 1], computed in [size_t]: the size of a vector is at most
    [SIZE_MAX], and the difference wraps around to [SIZE_MAX] when the
    vector is empty. *)
Definition size_minus_one (size : nat) : nat :=
  match size with
  | O => Z.to_nat SIZE_MAX
  | S k => k
  end.

(** The body of a counting loop run at each index of [idx] in turn. *)
Fixpoint for_each {S : Type} (idx : list nat) (body : nat → S → result S) (s : S)
    : result S :=
  match idx with
  | [] => Ok s
  | i :: rest => s' ← body i s; for_each rest body s'
  end.

(** [for (i = 0; i < n; ++i) body], [n] already known to fit its counter. *)
Definition for_upto {S : Type} (n : Z) (body : nat → S → result S) (s : S)
    : result S :=
  for_each (seq 0 (Z.to_nat n)) body s.

(** ** Eigen: dynamic vectors and matrices *)

Section Eigen.
Context {Dtype : Type} `{Scalar Dtype}.

(** [Eigen::Matrix<Dtype, Dynamic, 1>]. *)
Definition VectorX : Type := list Dtype.

(** [Eigen::Matrix<Dtype, Dynamic, Dynamic>], held by rows. The number of
    columns is a field of its own: a matrix of no rows still has one. *)
Record MatrixX := mkMatrixX {
  coeffs : list (list Dtype);
  cols : nat
}.

Definition rows (m : MatrixX) : nat := length (coeffs m).

(** Every row holds one coefficient for each column. *)
Definition well_formed (m : MatrixX) : Prop :=
  Forall (λ row, length row = cols m) (coeffs m).

(** [Matrix::Constant(r, c, v)], [Matrix::Zero(r, c)], [Matrix::Ones(r, c)]. *)
Definition Constant (r c : nat) (v : Dtype) : MatrixX :=
  {| coeffs := replicate r (replicate c v); cols := c |}.
Definition Zero (r c : nat) : MatrixX := Constant r c (of_int 0).
Definition Ones (r c : nat) : MatrixX := Constant r c (of_int 1).

(** [m(i, j)]. *)
Definition coeff (m : MatrixX) (i j : nat) : result Dtype :=
  row ← at_index (coeffs m) i; at_index row j.

(** [v[i] = a]. *)
Definition set_coeff (v : VectorX) (i : nat) (a : Dtype) : result VectorX :=
  if decide (i < length v) then Ok (<[i := a]> v) else Fault OutOfRange.

(** [m.row(i) << a0, a1, ...]: the comma initializer has to fill the row
    exactly. *)
Definition set_row (m : MatrixX) (i : nat) (values : list Dtype) : result MatrixX :=
  if decide (i < rows m) then
    if decide (length values = cols m) then
      Ok {| coeffs := <[i := values]> (coeffs m); cols := cols m |}
    else Fault BadDimension
  else Fault OutOfRange.

(** [m.setZero(r, c)], for an [int] number of rows: Eigen asserts that the
    sizes are not negative. *)
Definition setZero (r : Z) (c : nat) : result MatrixX :=
  if decide (0 ≤ r)%Z then Ok (Zero (Z.to_nat r) c) else Fault BadDimension.

(** [v.allFinite()]. *)
Definition allFinite (v : VectorX) : bool := forallb isfinite v.

(** Storage that Eigen allocates and does not initialise holds whatever
    was there: cell [k] reads [indeterminate k]. *)
Variable indeterminate : nat → Dtype.

Definition uninitialized_vector (n : nat) : VectorX :=
  indeterminate <$> seq 0 n.

Definition uninitialized_matrix (r c : nat) : MatrixX :=
  {| coeffs := (λ i, (λ j, indeterminate (i * c + j)) <$> seq 0 c) <$> seq 0 r;
     cols := c |}.

(** [v.resize(n, Eigen::NoChange)] on a column vector: nothing happens
    when the size is the same, otherwise the storage is allocated afresh. *)
Definition resize_vector (n : nat) (v : VectorX) : VectorX :=
  if decide (length v = n) then v else uninitialized_vector n.

(** [m.resize(r, c)]: the matrix is left as it is when the shape does not
    change; in any other case Eigen does not say what the coefficients
    are, so they read as storage that was not initialised. *)
Definition resize_matrix (r c : nat) (m : MatrixX) : MatrixX :=
  if decide (rows m = r ∧ cols m = c) then m else uninitialized_matrix r c.
End Eigen.

Arguments MatrixX : clear implicits.
Arguments VectorX : clear implicits.

(** ** PCL point types *)

(** [pcl::PointXYZ]. *)
Record PointXYZ (Dtype : Type) := mkPointXYZ {
  xyz_x : Dtype;
  xyz_y : Dtype;
  xyz_z : Dtype
}.
Arguments mkPointXYZ {Dtype}.
Arguments xyz_x {Dtype}.
Arguments xyz_y {Dtype}.
Arguments xyz_z {Dtype}.

(** [pcl::PointNormal]. *)
Record PointNormal (Dtype : Type) := mkPointNormal {
  data_x : Dtype;
  data_y : Dtype;
  data_z : Dtype;
  normal_x : Dtype;
  normal_y : Dtype;
  normal_z : Dtype;
  curvature : Dtype
}.
Arguments mkPointNormal {Dtype}.
Arguments data_x {Dtype}.
Arguments data_y {Dtype}.
Arguments data_z {Dtype}.
Arguments normal_x {Dtype}.
Arguments normal_y {Dtype}.
Arguments normal_z {Dtype}.
Arguments curvature {Dtype}.

(** The members [x], [y], [z] that every point type of the library has. *)
Class XYZ (Dtype Point : Type) := {
  x : Point → Dtype;
  y : Point → Dtype;
  z : Point → Dtype
}.

#[export] Instance PointXYZ_xyz {Dtype} : XYZ Dtype (PointXYZ Dtype) :=
  {| x := xyz_x; y := xyz_y; z := xyz_z |}.
#[export] Instance PointNormal_xyz {Dtype} : XYZ Dtype (PointNormal Dtype) :=
  {| x := data_x; y := data_y; z := data_z |}.

(** [pcl::PointCloud<Point>]: the points, in order. *)
Definition PointCloud (Point : Type) : Type := list Point.

(** ** glog *)

Inductive Severity := INFO | WARNING | ERROR | FATAL.

Section Logging.
Context {Dtype PointReference : Type}.

(** What is streamed into one [LOG(severity) << ...] statement. *)
Inductive LogItem :=
  | Text (s : string)
  | StreamVector (v : VectorX Dtype)
  | StreamReferencePoint (p : PointReference)
  | StreamCurrentPoint (p : PointNormal Dtype).

(** One [LOG(severity) << ...] statement: one record of the log. *)
Record LogRecord := mkLogRecord {
  severity : Severity;
  items : list LogItem
}.
End Logging.

Arguments LogItem : clear implicits.
Arguments LogRecord : clear implicits.

(** ** [ErrorPointToPlane<Dtype, PointReference, PointCurrent>]

    [computeError] binds point [i] of [current_] to a
    [const pcl::PointNormal &],
    and both explicit instantiations of the class take
    [PointCurrent = pcl::PointNormal]: the current cloud is a cloud of
    [PointNormal].  [PointReference] is [pcl::PointXYZ] or
    [pcl::PointNormal]. *)

Section ErrorPointToPlane.
Context {Dtype : Type} `{Scalar Dtype}.
Context {PointReference : Type} `{XYZ Dtype PointReference}.

Local Open Scope dtype_scope.

(** [pcltools::substractPointcloud<PointReference, PointCurrent>] is
    declared in a header that is not among the sources: the methods take
    it as a parameter. *)
Variable substractPointcloud :
  PointCloud PointReference → PointCloud (PointNormal Dtype) → PointCloud PointReference.

Variable indeterminate : nat → Dtype.

(** The data members of the class (declared in [error_point_to_plane.hpp]
    and its base, as the methods use them): [errorVector_[i]] is
    Eigen's vector subscript, [weights_(i, j)] and [J_.row(i)] are matrix
    accesses. *)
Record ErrorPointToPlane := mkErrorPointToPlane {
  reference_ : Ptr (PointCloud PointReference);
  current_ : Ptr (PointCloud (PointNormal Dtype));
  errorVector_ : VectorX Dtype;
  weights_ : MatrixX Dtype;
  J_ : MatrixX Dtype
}.

(** *** [computeJacobian] *)

(** The six coefficients streamed into [J_.row(i)]. *)
Definition jacobian_row (p : PointNormal Dtype) : list Dtype :=
  [ normal_x p; normal_y p; normal_z p;
    data_y p * normal_z p - data_z p * normal_y p;
    data_z p * normal_x p - data_x p * normal_z p;
    data_y p * normal_y p - data_y p * normal_x p ].

Definition computeJacobian (this : ErrorPointToPlane) : result ErrorPointToPlane :=
  current ← deref (current_ this);
  n ← int_of_size (length current);
  J ← setZero n 6;
  J ← for_upto n (λ i J, p ← at_index current i; set_row J i (jacobian_row p)) J;
  Ok {| reference_ := reference_ this; current_ := current_ this;
        errorVector_ := errorVector_ this; weights_ := weights_ this;
        J_ := J |}.

(** *** [computeError] *)

(** The right-hand side of the assignment to [errorVector_[i]]. *)
Definition residual (w0 w1 w2 : Dtype) (n : PointNormal Dtype) (p : PointReference)
    : Dtype :=
  w0 * normal_x n * x p + w1 * normal_y n * y p + w2 * normal_z n * z p.

(** The body of the first loop. *)
Definition computeError_body (pc_e : PointCloud PointReference)
    (current : PointCloud (PointNormal Dtype)) (weights : MatrixX Dtype)
    (i : nat) (errorVector : VectorX Dtype) : result (VectorX Dtype) :=
  p ← at_index pc_e i;
  n ← at_index current i;
  w0 ← coeff weights i 0;
  w1 ← coeff weights i 1;
  w2 ← coeff weights i 2;
  set_coeff errorVector i (residual w0 w1 w2 n p).

Definition warning (items : list (LogItem Dtype PointReference))
    : LogRecord Dtype PointReference :=
  {| severity := WARNING; items := items |}.

(** The records of the block under [if (!errorVector_.allFinite())]. *)
Definition nan_report (errorVector : VectorX Dtype)
    (pc_e reference : PointCloud PointReference)
    (current : PointCloud (PointNormal Dtype))
    : list (LogRecord Dtype PointReference) :=
  [ warning [Text ("Error Vector has NaN values" ++ String "010" "!");
             StreamVector errorVector];
    warning [Text "Displaying p_e"] ]
  ++ ((λ p, warning [StreamReferencePoint p]) <$> pc_e)
  ++ [ warning [Text "Displaying reference_"] ]
  ++ ((λ p, warning [StreamReferencePoint p]) <$> reference)
  ++ [ warning [Text "Displaying current_"] ]
  ++ ((λ p, warning [StreamCurrentPoint p]) <$> current).

(** The method returns the object after the call and the records it
    logged. The three loops of the report count with an [int]. *)
Definition computeError (this : ErrorPointToPlane)
    : result (ErrorPointToPlane * list (LogRecord Dtype PointReference)) :=
  reference ← deref (reference_ this);
  current ← deref (current_ this);
  let pc_e := substractPointcloud reference current in
  n ← unsigned_of_size (length pc_e);
  errorVector ← for_upto n (computeError_body pc_e current (weights_ this))
                   (errorVector_ this);
  let this' := {| reference_ := reference_ this; current_ := current_ this;
                  errorVector_ := errorVector; weights_ := weights_ this;
                  J_ := J_ this |} in
  if allFinite errorVector then Ok (this', [])
  else
    _ ← int_of_size (length pc_e);
    _ ← int_of_size (length reference);
    _ ← int_of_size (length current);
    Ok (this', nan_report errorVector pc_e reference current).

(** *** [setInputCurrent] and [setInputReference] *)

Definition setInputCurrent (in_ : Ptr (PointCloud (PointNormal Dtype)))
    (this : ErrorPointToPlane) : result ErrorPointToPlane :=
  current ← deref in_;
  let errorVector := resize_vector indeterminate (length current) (errorVector_ this) in
  let weights := resize_matrix indeterminate (length current) 3 (weights_ this) in
  let weights := Ones (length current) 3 in
  Ok {| reference_ := reference_ this; current_ := in_;
        errorVector_ := errorVector; weights_ := weights;
        J_ := Zero (length current) 6 |}.

Definition setInputReference (in_ : Ptr (PointCloud PointReference))
    (this : ErrorPointToPlane) : ErrorPointToPlane :=
  {| reference_ := in_; current_ := current_ this;
     errorVector_ := errorVector_ this; weights_ := weights_ this;
     J_ := J_ this |}.

(** *** States of an object and conditions on its clouds *)

(** The per-point buffers have the shape [setInputCurrent] gives them for
    a cloud of the cardinality of [current]. *)
Definition buffers_sized (current : PointCloud (PointNormal Dtype))
    (this : ErrorPointToPlane) : Prop :=
  length (errorVector_ this) = length current ∧
  rows (weights_ this) = length current ∧
  cols (weights_ this) = 3 ∧
  well_formed (weights_ this).

(** [bound current this]: the last call of [setInputCurrent] on [this]
    was for a cloud that reads [current], and only other methods of the
    class ran since. *)
Inductive bound (current : PointCloud (PointNormal Dtype)) : ErrorPointToPlane → Prop :=
  | bound_setInputCurrent this this' :
      setInputCurrent (Some current) this = Ok this' →
      bound current this'
  | bound_setInputReference in_ this :
      bound current this →
      bound current (setInputReference in_ this)
  | bound_computeError this this' log :
      bound current this →
      computeError this = Ok (this', log) →
      bound current this'
  | bound_computeJacobian this this' :
      bound current this →
      computeJacobian this = Ok this' →
      bound current this'.

(** Each of the three clouds [computeError] walks over has a size that
    the [int] and [unsigned int] counters of its loops reach. *)
Definition counters_fit (reference : PointCloud PointReference)
    (current : PointCloud (PointNormal Dtype)) : Prop :=
  (Z.of_nat (length (substractPointcloud reference current)) ≤ INT_MAX)%Z ∧
  (Z.of_nat (length reference) ≤ INT_MAX)%Z ∧
  (Z.of_nat (length current) ≤ INT_MAX)%Z.
End ErrorPointToPlane.

Arguments ErrorPointToPlane : clear implicits.

(** ** [include/icp/icp.hpp] *)

Section IcpParameters.
Context {Dtype : Type} `{Scalar Dtype}.

(** [struct IcpParameters_<Dtype>]. [initial_guess] is an
    [Eigen::Matrix<Dtype, 6, 1>]. *)
Record IcpParameters_ := mkIcpParameters {
  lambda : Dtype;
  max_iter : Z;
  min_variation : Dtype;
  max_correspondance_distance : Dtype;
  initial_guess : MatrixX Dtype
}.

(** The constructor [IcpParameters_()]: the member initialisers, then the
    assignment of [Zero(6, 1)] to [initial_guess] in the body. *)
Definition IcpParameters_ctor : IcpParameters_ :=
  {| lambda := of_int 1;
     max_iter := 10;
     min_variation := of_double (decimal_literal 10 (-5));
     max_correspondance_distance := numeric_limits_max;
     initial_guess := Zero 6 1 |}.
End IcpParameters.

Arguments IcpParameters_ : clear implicits.

(** What [operator<<] sends to a [std::ostream]. *)
Inductive StreamItem (Dtype : Type) :=
  | Chars (s : string)
  | Number (d : Dtype)
  | Matrix (m : MatrixX Dtype).
Arguments Chars {Dtype} s.
Arguments Number {Dtype} d.
Arguments Matrix {Dtype} m.

Section IcpResults.
Context {Dtype : Type} `{Scalar Dtype}.
Context {Point : Type}.

(** [struct IcpResults_<Dtype, Point>]. [transformation] is an
    [Eigen::Matrix<Dtype, 4, 4>]. *)
Record IcpResults_ := mkIcpResults {
  registeredPointCloud : Ptr (PointCloud Point);
  registrationError : list Dtype;
  transformation : MatrixX Dtype
}.

(** [registrationError[registrationError.size() - 1]]: the subtraction is
    one of [size_t]. *)
Definition getFinalError (this : IcpResults_) : result Dtype :=
  at_index (registrationError this)
           (size_minus_one (length (registrationError this))).

Definition clear (this : IcpResults_) : IcpResults_ :=
  {| registeredPointCloud := registeredPointCloud this;
     registrationError := [];
     transformation := Zero 4 4 |}.

(** The struct has no constructor of its own. Its implicit one builds an
    empty pointer and an empty vector, and leaves the coefficients of the
    fixed-size matrix as they are in memory. *)
Definition IcpResults_ctor (indeterminate : nat → Dtype) : IcpResults_ :=
  {| registeredPointCloud := None;
     registrationError := [];
     transformation := uninitialized_matrix indeterminate 4 4 |}.

Definition newline : string := String "010" "".

(** [operator<<(std::ostream &, const IcpResults_ &)]; its loop counts
    with an [int]. *)
Definition print_IcpResults (r : IcpResults_) : result (list (StreamItem Dtype)) :=
  if decide (registrationError r = []) then Ok [Chars "Icp: No Results!"]
  else
    initial ← at_index (registrationError r) 0;
    final ← getFinalError r;
    _ ← int_of_size (length (registrationError r));
    Ok ([ Chars "Initial error: "; Number initial;
          Chars (newline ++ "Final error: "); Number final;
          Chars (newline ++ "Final transformation: " ++ newline);
          Matrix (transformation r);
          Chars (newline ++ "Error history: ") ]
        ++ concat ((λ e, [Number e; Chars ", "]) <$> registrationError r)).
End IcpResults.

Arguments IcpResults_ : clear implicits.

(** ** [class Icp<Dtype, PointSource, PointTarget, Error_, MEstimator>] *)

Section Icp.
Context {Dtype : Type} `{Scalar Dtype}.
Context {PointSource PointTarget Error_ MEstimator : Type}.

(** [pcl::KdTreeFLANN<PointTarget>] belongs to PCL. Of the index, the
    engine's header only fixes the cloud it is built from. *)
Record KdTreeFLANN := mkKdTreeFLANN {
  input_ : Ptr (PointCloud PointTarget)
}.

Definition setInputCloud (cloud : Ptr (PointCloud PointTarget)) (tree : KdTreeFLANN)
    : KdTreeFLANN :=
  {| input_ := cloud |}.

Record Icp := mkIcp {
  target_ : Ptr (PointCloud PointTarget);
  kdtree_ : KdTreeFLANN;
  source_ : Ptr (PointCloud PointSource);
  err_ : Error_;
  mestimator_ : MEstimator;
  param_ : IcpParameters_ Dtype;
  r_ : IcpResults_ Dtype PointSource
}.

(** The default constructors of the two strategy classes. *)
Variable Error_ctor : Error_.
Variable MEstimator_ctor : MEstimator.
Variable indeterminate : nat → Dtype.

(** [Icp() { }]: every member is default-constructed. ([run], [initialize]
    and [findNearestNeighbors] are declared in the header and defined
    elsewhere.) *)
Definition Icp_ctor : Icp :=
  {| target_ := None;
     kdtree_ := {| input_ := None |};
     source_ := None;
     err_ := Error_ctor;
     mestimator_ := MEstimator_ctor;
     param_ := IcpParameters_ctor;
     r_ := IcpResults_ctor indeterminate |}.

Definition setParameters (param : IcpParameters_ Dtype) (this : Icp) : Icp :=
  {| target_ := target_ this; kdtree_ := kdtree_ this; source_ := source_ this;
     err_ := err_ this; mestimator_ := mestimator_ this;
     param_ := param; r_ := r_ this |}.

Definition getParameters (this : Icp) : IcpParameters_ Dtype := param_ this.

Definition setInputTarget (in_ : Ptr (PointCloud PointTarget)) (this : Icp) : Icp :=
  let target := in_ in
  {| target_ := target; kdtree_ := setInputCloud target (kdtree_ this);
     source_ := source_ this;
     err_ := err_ this; mestimator_ := mestimator_ this;
     param_ := param_ this; r_ := r_ this |}.

Definition setInputSource (in_ : Ptr (PointCloud PointSource)) (this : Icp) : Icp :=
  {| target_ := target_ this; kdtree_ := kdtree_ this; source_ := in_;
     err_ := err_ this; mestimator_ := mestimator_ this;
     param_ := param_ this; r_ := r_ this |}.

Definition getResults (this : Icp) : IcpResults_ Dtype PointSource := r_ this.
End Icp.

Arguments Icp : clear implicits.
Arguments KdTreeFLANN : clear implicits.

(** ** Two scalar types *)

(** Exact integers: every value is finite. *)
#[export] Instance Z_scalar : Scalar Z := {|
  of_int := λ n, n;
  of_double := Qfloor;
  numeric_limits_max := INT_MAX;
  add := Z.add;
  sub := Z.sub;
  mul := Z.mul;
  isfinite := λ _, true
|}.

(** [double], as the binary64 numbers of the kernel. The conversion of an
    integer is exact below 2^53 in magnitude; the conversion of a literal
    rounds the quotient of its numerator and denominator, which is the
    nearest [double] when both are below 2^53. *)
Definition float_of_int (n : Z) : float :=
  match n with
  | Z0 => PrimFloat.zero
  | Zpos _ => PrimFloat.of_uint63 (Uint63.of_Z n)
  | Zneg p => PrimFloat.opp (PrimFloat.of_uint63 (Uint63.of_Z (Zpos p)))
  end.

#[export] Instance double_scalar : Scalar float := {|
  of_int := float_of_int;
  of_double := λ q, PrimFloat.div (float_of_int (Qnum q)) (float_of_int (Zpos (Qden q)));
  numeric_limits_max := 0x1.fffffffffffffp+1023%float;
  add := PrimFloat.add;
  sub := PrimFloat.sub;
  mul := PrimFloat.mul;
  isfinite := PrimFloat.is_finite
|}.

(** ** The difference of two clouds *)

Section SubstractPointcloud.
Context {Dtype : Type} `{Scalar Dtype}.
Context {PointReference : Type} `{XYZ Dtype PointReference}.

Local Open Scope dtype_scope.

(** Modelled from the spec: [pcltools::substractPointcloud], which
    [computeError] calls and whose definition ([pcltools.hpp]) is missing
    from the sources. The specification defines the residual on "the vector
    (current_i − reference_i)": point [i] of the cloud the helper returns
    is that vector, for the points [i] of the two clouds. The line left as
    a comment in [computeError] writes the same difference, the matrix of
    [current_] minus the matrix of [reference_]. *)
Definition pointwise_difference
    (substractPointcloud : PointCloud PointReference →
       PointCloud (PointNormal Dtype) → PointCloud PointReference) : Prop :=
  ∀ reference current i d,
    substractPointcloud reference current !! i = Some d →
    ∃ r c, reference !! i = Some r ∧ current !! i = Some c ∧
      x d = x c - x r ∧ y d = y c - y r ∧ z d = z c - z r.
End SubstractPointcloud.

(** Modelled from the spec: [pcltools::substractPointcloud] at
    [PointReference = pcl::PointXYZ], whose definition is missing from the
    sources. The residual is defined on "the vector
    (current_i − reference_i)", here one for each index the two clouds
    share. *)
Definition substractPointcloud_xyz {Dtype} `{Scalar Dtype}
    (reference : PointCloud (PointXYZ Dtype)) (current : PointCloud (PointNormal Dtype))
    : PointCloud (PointXYZ Dtype) :=
  zip_with (λ r c, {| xyz_x := (x c - x r)%D; xyz_y := (y c - y r)%D;
                      xyz_z := (z c - z r)%D |}) reference current.

(** ** The engine's view of its Result Record *)

Section Invalidation.
Context {Dtype : Type} `{Scalar Dtype}.
Context {PointSource PointTarget Error_ MEstimator : Type}.

(** A call that takes the engine from [before] to [after] invalidates the
    results of a prior run: results that [before] held are not what
    [getResults] returns on [after]. *)
Definition invalidates_results
    (before after : Icp Dtype PointSource PointTarget Error_ MEstimator) : Prop :=
  registrationError (getResults before) ≠ [] →
  getResults after ≠ getResults before.

(** The cleared state of a Result Record: an empty history and the zero
    4×4 matrix. *)
Definition cleared (r : IcpResults_ Dtype PointSource) : Prop :=
  registrationError r = [] ∧ transformation r = Zero 4 4.
End Invalidation.

(** ** Concrete clouds and objects *)

(** Two points with normals, and two reference points, over the integers. *)
Definition cloud_current : PointCloud (PointNormal Z) :=
  [ mkPointNormal 1 2 3 0 0 1 0; mkPointNormal 4 5 6 1 0 0 0 ]%Z.

Definition cloud_reference : PointCloud (PointXYZ Z) :=
  [ mkPointXYZ 1 2 1; mkPointXYZ 2 5 6 ]%Z.

(** An object to which nothing is bound yet. *)
Definition unbound {Dtype PointReference} : ErrorPointToPlane Dtype PointReference :=
  {| reference_ := None; current_ := None; errorVector_ := [];
     weights_ := {| coeffs := []; cols := 0 |};
     J_ := {| coeffs := []; cols := 0 |} |}.

(** The content of storage that was not initialised, in the examples. *)
Definition stale_Z : nat → Z := λ _, 7%Z.
Definition stale_double : nat → float := λ _, 0x1p+0%float.

(** The object after [setInputCurrent(cloud_current)] and
    [setInputReference(cloud_reference)]. *)
Definition kernel_Z : ErrorPointToPlane Z (PointXYZ Z) :=
  {| reference_ := Some cloud_reference; current_ := Some cloud_current;
     errorVector_ := [7; 7]%Z;
     weights_ := Ones 2 3; J_ := Zero 2 6 |}.

(** The same object before [setInputReference]. *)
Definition kernel_Z_current_only : ErrorPointToPlane Z (PointXYZ Z) :=
  {| reference_ := None; current_ := Some cloud_current;
     errorVector_ := [7; 7]%Z;
     weights_ := Ones 2 3; J_ := Zero 2 6 |}.

(** A current cloud over [double] whose first point lies at infinity. *)
Definition cloud_current_inf : PointCloud (PointNormal float) :=
  [ mkPointNormal infinity 0 0 1 0 0 0; mkPointNormal 1 1 1 0 1 0 0 ]%float.

Definition cloud_reference_double : PointCloud (PointXYZ float) :=
  [ mkPointXYZ 0 0 0; mkPointXYZ 1 0 1 ]%float.

Definition kernel_double : ErrorPointToPlane float (PointXYZ float) :=
  {| reference_ := Some cloud_reference_double; current_ := Some cloud_current_inf;
     errorVector_ := [1; 1]%float;
     weights_ := Ones 2 3; J_ := Zero 2 6 |}.

Definition kernel_double_current_only : ErrorPointToPlane float (PointXYZ float) :=
  {| reference_ := None; current_ := Some cloud_current_inf;
     errorVector_ := [1; 1]%float;
     weights_ := Ones 2 3; J_ := Zero 2 6 |}.

(** The object [kernel_Z] after the owner of the current cloud has added a
    point to it: the pointer is shared, the buffers keep the size they got
    from [setInputCurrent]. *)
Definition kernel_Z_grown : ErrorPointToPlane Z (PointXYZ Z) :=
  {| reference_ := Some (cloud_reference ++ [mkPointXYZ 0 0 0]%Z);
     current_ := Some (cloud_current ++ [mkPointNormal 0 0 0 0 1 0 0]%Z);
     errorVector_ := [7; 7]%Z;
     weights_ := Ones 2 3; J_ := Zero 2 6 |}.

(** A cloud to register against next. *)
Definition cloud_target : PointCloud (PointXYZ Z) :=
  [ mkPointXYZ 0 0 0; mkPointXYZ 9 9 9; mkPointXYZ 5 5 5 ]%Z.

Definition identity4 : MatrixX Z :=
  {| coeffs := [[1;0;0;0]; [0;1;0;0]; [0;0;1;0]; [0;0;0;1]]%Z; cols := 4 |}.

(** An engine fresh from its constructor, on storage that holds sevens. *)
Definition engine_new : Icp Z (PointXYZ Z) (PointXYZ Z) unit unit :=
  Icp_ctor tt tt stale_Z.

(** An engine that holds the results of a run: a history of two errors and
    the identity as transformation. *)
Definition engine_after_run : Icp Z (PointXYZ Z) (PointXYZ Z) unit unit :=
  {| target_ := Some cloud_reference;
     kdtree_ := {| input_ := Some cloud_reference |};
     source_ := Some cloud_reference;
     err_ := tt; mestimator_ := tt;
     param_ := IcpParameters_ctor;
     r_ := {| registeredPointCloud := Some cloud_reference;
              registrationError := [3; 1]%Z;
              transformation := identity4 |} |}.


(** ** [operator<<] for [IcpParameters_] *)

Section IcpParametersStream.
Context {Dtype : Type} `{Scalar Dtype}.

(** What the operator sends to the stream: text, a scalar, the [int]
    [max_iter], the vector [initial_guess]. *)
Inductive ParameterItem :=
  | PChars (s : string)
  | PScalar (d : Dtype)
  | PInt (n : Z)
  | PMatrix (m : MatrixX Dtype).

(** [operator<<(std::ostream &, const IcpParameters_ &)]. *)
Definition print_IcpParameters (p : IcpParameters_ Dtype) : list ParameterItem :=
  [ PChars "Lambda: "; PScalar (lambda p);
    PChars (newline ++ "Max iterations: "); PInt (max_iter p);
    PChars (newline ++ "Min variation: "); PScalar (min_variation p);
    PChars (newline ++ "Initial guess (twist):" ++ newline);
    PMatrix (initial_guess p) ].
End IcpParametersStream.

Arguments ParameterItem : clear implicits.

(** The numbers among what [operator<<] has printed, in order. *)
Definition printed_numbers {Dtype} (items : list (StreamItem Dtype)) : list Dtype :=
  omap (λ item, match item with Number d => Some d | _ => None end) items.

(** ** The engines that the setters build *)

Section IcpStates.
Context {Dtype : Type} `{Scalar Dtype}.
Context {PointSource PointTarget Error_ MEstimator : Type}.

Variable Error_ctor : Error_.
Variable MEstimator_ctor : MEstimator.
Variable indeterminate : nat → Dtype.

(** [configured this]: [this] comes from the constructor by calls of
    [setParameters], [setInputTarget] and [setInputSource], the methods the
    header defines. *)
Inductive configured : Icp Dtype PointSource PointTarget Error_ MEstimator → Prop :=
  | configured_ctor :
      configured (Icp_ctor Error_ctor MEstimator_ctor indeterminate)
  | configured_setParameters param this :
      configured this → configured (setParameters param this)
  | configured_setInputTarget in_ this :
      configured this → configured (setInputTarget in_ this)
  | configured_setInputSource in_ this :
      configured this → configured (setInputSource in_ this).
End IcpStates.

(** ** More concrete inputs *)

(** The current cloud after a rigid motion: as many points, elsewhere. *)
Definition cloud_current_moved : PointCloud (PointNormal Z) :=
  [ mkPointNormal 2 2 3 0 0 1 0; mkPointNormal 5 5 6 1 0 0 0 ]%Z.

(** The object [kernel_Z] once [computeError] has run on it. *)
Definition kernel_Z_residuals : ErrorPointToPlane Z (PointXYZ Z) :=
  {| reference_ := Some cloud_reference; current_ := Some cloud_current;
     errorVector_ := [2; 2]%Z;
     weights_ := Ones 2 3; J_ := Zero 2 6 |}.

(** The object [kernel_Z] once [computeJacobian] has run on it. *)
Definition kernel_Z_jacobian : ErrorPointToPlane Z (PointXYZ Z) :=
  {| reference_ := Some cloud_reference; current_ := Some cloud_current;
     errorVector_ := [7; 7]%Z;
     weights_ := Ones 2 3;
     J_ := {| coeffs := [[0; 0; 1; 2; -1; 0]; [1; 0; 0; 0; 6; -5]]%Z; cols := 6 |} |}.

(** The object [kernel_Z] once both have run on it. *)
Definition kernel_Z_both : ErrorPointToPlane Z (PointXYZ Z) :=
  {| reference_ := Some cloud_reference; current_ := Some cloud_current;
     errorVector_ := [2; 2]%Z;
     weights_ := Ones 2 3;
     J_ := {| coeffs := [[0; 0; 1; 2; -1; 0]; [1; 0; 0; 0; 6; -5]]%Z; cols := 6 |} |}.

(** The object [kernel_Z] with a reference cloud of one point, and with a
    reference cloud of no point. *)
Definition kernel_Z_short : ErrorPointToPlane Z (PointXYZ Z) :=
  setInputReference (Some [mkPointXYZ 1 2 1]%Z) kernel_Z.

Definition kernel_Z_no_reference_point : ErrorPointToPlane Z (PointXYZ Z) :=
  setInputReference (Some []) kernel_Z.

(** A new engine given a target, a source and parameters. *)
Definition engine_configured : Icp Z (PointXYZ Z) (PointXYZ Z) unit unit :=
  setParameters IcpParameters_ctor
    (setInputSource (Some cloud_reference)
       (setInputTarget (Some cloud_target) engine_new)).

(** ** Reasoning about the fault monad and the loops *)

Lemma bind_Ok {A B} (m : result A) (k : A → result B) (b : B) :
  (a ← m; k a) = Ok b ↔ ∃ a, m = Ok a ∧ k a = Ok b.
Proof.
  destruct m as [a|f]; simpl; split.
  - intros Hk. exists a. done.
  - intros (a' & Ha & Hk). by inversion Ha.
  - done.
  - intros (a' & Ha & _). done.
Qed.

Lemma at_index_Ok {T} (v : list T) (i : nat) (t : T) :
  at_index v i = Ok t ↔ v !! i = Some t.
Proof. unfold at_index. destruct (v !! i); split; congruence. Qed.

Lemma deref_Ok {T} (p : Ptr T) (t : T) : deref p = Ok t ↔ p = Some t.
Proof. destruct p; simpl; split; congruence. Qed.

Lemma int_of_size_Ok (n : nat) (k : Z) :
  int_of_size n = Ok k ↔ (Z.of_nat n ≤ INT_MAX)%Z ∧ k = Z.of_nat n.
Proof.
  unfold int_of_size. case_decide; split.
  - intros [= <-]. done.
  - intros [_ ->]. done.
  - done.
  - intros [? _]. done.
Qed.

Lemma unsigned_of_size_Ok (n : nat) (k : Z) :
  unsigned_of_size n = Ok k ↔ (Z.of_nat n ≤ UINT_MAX)%Z ∧ k = Z.of_nat n.
Proof.
  unfold unsigned_of_size. case_decide; split.
  - intros [= <-]. done.
  - intros [_ ->]. done.
  - done.
  - intros [? _]. done.
Qed.

Lemma for_each_app {S} (idx1 idx2 : list nat) (body : nat → S → result S) (s : S) :
  for_each (idx1 ++ idx2) body s = (s' ← for_each idx1 body s; for_each idx2 body s').
Proof.
  revert s. induction idx1 as [|i idx1 IH]; intros s; simpl; [done|].
  destruct (body i s) as [s1|f]; simpl; [apply IH | done].
Qed.

(** The loop rule: a property of the state after [k] turns that each turn
    carries one step further holds after [n] turns, when the loop returns. *)
Lemma for_upto_invariant {S} (Inv : nat → S → Prop) (n : nat)
    (body : nat → S → result S) (s s' : S) :
  Inv 0 s →
  (∀ k t t', k < n → Inv k t → body k t = Ok t' → Inv (Datatypes.S k) t') →
  for_each (seq 0 n) body s = Ok s' →
  Inv n s'.
Proof.
  intros H0 Hstep. revert s'. induction n as [|n IH]; intros s'.
  - simpl. by intros [= <-].
  - rewrite seq_S, for_each_app. simpl. intros Hrun.
    apply bind_Ok in Hrun as (t & Ht & Hrun).
    apply bind_Ok in Hrun as (t' & Ht' & Hret).
    injection Hret as <-.
    apply (Hstep n t); [lia | | done].
    apply IH; [|done]. intros k u u' Hk. apply Hstep. lia.
Qed.

(** The same rule for a loop whose turns cannot fault: the loop returns. *)
Lemma for_upto_returns {S} (Inv : nat → S → Prop) (n : nat)
    (body : nat → S → result S) (s : S) :
  Inv 0 s →
  (∀ k t, k < n → Inv k t → ∃ t', body k t = Ok t' ∧ Inv (Datatypes.S k) t') →
  ∃ s', for_each (seq 0 n) body s = Ok s' ∧ Inv n s'.
Proof.
  intros H0 Hstep. induction n as [|n IH].
  - exists s. done.
  - destruct IH as (t & Ht & HInv).
    { intros k u Hk. apply Hstep. lia. }
    destruct (Hstep n t) as (t' & Ht' & HInv'); [lia | done |].
    exists t'. split; [|done].
    rewrite seq_S, for_each_app, Ht. simpl. by rewrite Ht'.
Qed.

(** ** Eigen accesses *)

Section EigenFacts.
Context {Dtype : Type} `{Scalar Dtype}.

Lemma coeff_Ok (m : MatrixX Dtype) (i j : nat) (v : Dtype) :
  coeff m i j = Ok v ↔ ∃ row, coeffs m !! i = Some row ∧ row !! j = Some v.
Proof.
  unfold coeff. rewrite bind_Ok. split.
  - intros (row & Hrow & Hv). exists row. by rewrite <- !at_index_Ok.
  - intros (row & Hrow & Hv). exists row. by rewrite !at_index_Ok.
Qed.

Lemma coeff_in_range (m : MatrixX Dtype) (i j : nat) :
  well_formed m → i < rows m → j < cols m → ∃ v, coeff m i j = Ok v.
Proof.
  intros Hwf Hi Hj.
  destruct (lookup_lt_is_Some_2 (coeffs m) i Hi) as [row Hrow].
  assert (length row = cols m) as Hlen.
  { unfold well_formed in Hwf. rewrite Forall_lookup in Hwf. by apply (Hwf i). }
  destruct (lookup_lt_is_Some_2 row j) as [v Hv]; [lia|].
  exists v. apply coeff_Ok. by exists row.
Qed.

Lemma set_coeff_Ok (v : VectorX Dtype) (i : nat) (a : Dtype) (v' : VectorX Dtype) :
  set_coeff v i a = Ok v' ↔ i < length v ∧ v' = <[i := a]> v.
Proof.
  unfold set_coeff. case_decide; split.
  - intros [= <-]. done.
  - intros [_ ->]. done.
  - done.
  - intros [? _]. done.
Qed.

Lemma set_row_Ok (m : MatrixX Dtype) (i : nat) (values : list Dtype) (m' : MatrixX Dtype) :
  set_row m i values = Ok m' ↔
  i < rows m ∧ length values = cols m ∧
  m' = {| coeffs := <[i := values]> (coeffs m); cols := cols m |}.
Proof.
  unfold set_row. repeat case_decide; split; try done.
  - intros [= <-]. done.
  - intros (_ & _ & ->). done.
  - intros (_ & ? & _). done.
  - intros (? & _). done.
Qed.

Lemma Constant_rows (r c : nat) (v : Dtype) : rows (Constant r c v) = r.
Proof. unfold rows. simpl. apply length_replicate. Qed.

Lemma Constant_well_formed (r c : nat) (v : Dtype) : well_formed (Constant r c v).
Proof.
  unfold well_formed. simpl. apply Forall_replicate. apply length_replicate.
Qed.

Lemma Constant_coeff (r c : nat) (v : Dtype) (i j : nat) :
  i < r → j < c → coeff (Constant r c v) i j = Ok v.
Proof.
  intros Hi Hj. apply coeff_Ok. exists (replicate c v). simpl.
  split; by apply lookup_replicate_2.
Qed.

Lemma allFinite_false (v : VectorX Dtype) :
  allFinite v = false ↔ ∃ i a, v !! i = Some a ∧ isfinite a = false.
Proof.
  unfold allFinite. induction v as [|b v IH]; simpl.
  - split; [done|]. intros (i & a & Hi & _). by rewrite lookup_nil in Hi.
  - rewrite andb_false_iff, IH. split.
    + intros [Hb | (i & a & Hi & Ha)].
      * exists 0, b. done.
      * exists (S i), a. done.
    + intros ([|i] & a & Hi & Ha); simpl in Hi.
      * left. congruence.
      * right. by exists i, a.
Qed.
End EigenFacts.

(** ** The point-to-plane kernel *)

Section ErrorPointToPlaneFacts.
Context {Dtype : Type} `{Scalar Dtype}.
Context {PointReference : Type} `{XYZ Dtype PointReference}.

Local Open Scope dtype_scope.

Variable substractPointcloud :
  PointCloud PointReference → PointCloud (PointNormal Dtype) → PointCloud PointReference.
Variable indeterminate : nat → Dtype.

Implicit Types (this : ErrorPointToPlane Dtype PointReference).
Implicit Types (reference pc_e : PointCloud PointReference).
Implicit Types (current : PointCloud (PointNormal Dtype)).
Implicit Types (weights : MatrixX Dtype) (ev : VectorX Dtype).

(** *** The first loop of [computeError] *)

Lemma computeError_body_Ok pc_e current weights i ev ev' :
  computeError_body pc_e current weights i ev = Ok ev' ↔
  ∃ p n w0 w1 w2,
    pc_e !! i = Some p ∧ current !! i = Some n ∧
    coeff weights i 0 = Ok w0 ∧ coeff weights i 1 = Ok w1 ∧
    coeff weights i 2 = Ok w2 ∧
    i < length ev ∧ ev' = <[i := residual w0 w1 w2 n p]> ev.
Proof.
  unfold computeError_body. split.
  - intros Hrun.
    apply bind_Ok in Hrun as (p & Hp & Hrun).
    apply bind_Ok in Hrun as (n & Hn & Hrun).
    apply bind_Ok in Hrun as (w0 & Hw0 & Hrun).
    apply bind_Ok in Hrun as (w1 & Hw1 & Hrun).
    apply bind_Ok in Hrun as (w2 & Hw2 & Hrun).
    apply set_coeff_Ok in Hrun as [Hi ->].
    apply at_index_Ok in Hp, Hn.
    by exists p, n, w0, w1, w2.
  - intros (p & n & w0 & w1 & w2 & Hp & Hn & Hw0 & Hw1 & Hw2 & Hi & ->).
    apply at_index_Ok in Hp, Hn.
    rewrite Hp; simpl. rewrite Hn; simpl.
    rewrite Hw0; simpl. rewrite Hw1; simpl. rewrite Hw2; simpl.
    apply set_coeff_Ok. done.
Qed.

(** When the loop returns, it has kept the size of the vector, written the
    residual of every index below [n], and left the other entries. *)
Lemma residual_loop_spec pc_e current weights n ev ev' :
  for_each (seq 0 n) (computeError_body pc_e current weights) ev = Ok ev' →
  length ev' = length ev ∧
  (∀ i, i < n →
     ∃ p c w0 w1 w2,
       pc_e !! i = Some p ∧ current !! i = Some c ∧
       coeff weights i 0 = Ok w0 ∧ coeff weights i 1 = Ok w1 ∧
       coeff weights i 2 = Ok w2 ∧
       ev' !! i = Some (residual w0 w1 w2 c p)) ∧
  (∀ i, n ≤ i → ev' !! i = ev !! i).
Proof.
  apply (for_upto_invariant (λ k t,
    length t = length ev ∧
    (∀ i, i < k →
       ∃ p c w0 w1 w2,
         pc_e !! i = Some p ∧ current !! i = Some c ∧
         coeff weights i 0 = Ok w0 ∧ coeff weights i 1 = Ok w1 ∧
         coeff weights i 2 = Ok w2 ∧
         t !! i = Some (residual w0 w1 w2 c p)) ∧
    (∀ i, k ≤ i → t !! i = ev !! i))).
  - split; [done|]. split; [|done]. intros i Hi. lia.
  - intros k t t' Hk (Hlen & Hbelow & Habove) Hbody.
    apply computeError_body_Ok in Hbody
      as (p & c & w0 & w1 & w2 & Hp & Hc & Hw0 & Hw1 & Hw2 & Hkt & ->).
    split; [by rewrite length_insert|]. split.
    + intros i Hi. destruct (decide (i = k)) as [->|Hne].
      * exists p, c, w0, w1, w2. rewrite list_lookup_insert_eq; done.
      * destruct (Hbelow i) as (p' & c' & v0 & v1 & v2 & ? & ? & ? & ? & ? & ?); [lia|].
        exists p', c', v0, v1, v2. rewrite list_lookup_insert_ne; done.
    + intros i Hi. rewrite list_lookup_insert_ne; [|lia]. apply Habove. lia.
Qed.

(** The loop returns when every index below [n] is one of the difference
    cloud, of the current cloud, of the residual vector and of the weight
    matrix. *)
Lemma residual_loop_returns pc_e current weights n ev :
  n ≤ length pc_e → n ≤ length current → n ≤ length ev →
  n ≤ rows weights → cols weights = 3 → well_formed weights →
  ∃ ev', for_each (seq 0 n) (computeError_body pc_e current weights) ev = Ok ev'.
Proof.
  intros Hpc Hcur Hev Hrows Hcols Hwf.
  destruct (for_upto_returns (λ _ t, length t = length ev) n
              (computeError_body pc_e current weights) ev) as (ev' & Hrun & _);
    [done | | by exists ev'].
  intros k t Hk Hlen.
  destruct (lookup_lt_is_Some_2 pc_e k) as [p Hp]; [lia|].
  destruct (lookup_lt_is_Some_2 current k) as [c Hc]; [lia|].
  destruct (coeff_in_range weights k 0) as [w0 Hw0]; [done | lia | lia |].
  destruct (coeff_in_range weights k 1) as [w1 Hw1]; [done | lia | lia |].
  destruct (coeff_in_range weights k 2) as [w2 Hw2]; [done | lia | lia |].
  exists (<[k := residual w0 w1 w2 c p]> t). split.
  - apply computeError_body_Ok. exists p, c, w0, w1, w2.
    repeat split; try done. lia.
  - by rewrite length_insert.
Qed.

(** *** What a call of [computeError] that returns has done *)

Lemma computeError_Ok this this' log :
  computeError substractPointcloud this = Ok (this', log) ↔
  ∃ reference current ev',
    reference_ this = Some reference ∧ current_ this = Some current ∧
    (Z.of_nat (length (substractPointcloud reference current)) ≤ UINT_MAX)%Z ∧
    for_each (seq 0 (length (substractPointcloud reference current)))
      (computeError_body (substractPointcloud reference current) current
         (weights_ this)) (errorVector_ this) = Ok ev' ∧
    this' = {| reference_ := reference_ this; current_ := current_ this;
               errorVector_ := ev'; weights_ := weights_ this; J_ := J_ this |} ∧
    (allFinite ev' = true ∧ log = [] ∨
     allFinite ev' = false ∧
     counters_fit substractPointcloud reference current ∧
     log = nan_report ev' (substractPointcloud reference current) reference current).
Proof.
  unfold computeError, for_upto, counters_fit. split.
  - intros Hrun.
    apply bind_Ok in Hrun as (reference & Href & Hrun).
    apply bind_Ok in Hrun as (current & Hcur & Hrun).
    apply bind_Ok in Hrun as (n & Hn & Hrun).
    apply bind_Ok in Hrun as (ev' & Hloop & Hrun).
    apply deref_Ok in Href, Hcur.
    apply unsigned_of_size_Ok in Hn as [Hfit ->].
    rewrite Nat2Z.id in Hloop.
    exists reference, current, ev'. repeat (split; [done|]).
    destruct (allFinite ev') eqn:Hfin.
    + injection Hrun as <- <-. split; [done|]. by left.
    + apply bind_Ok in Hrun as (n1 & Hn1 & Hrun).
      apply bind_Ok in Hrun as (n2 & Hn2 & Hrun).
      apply bind_Ok in Hrun as (n3 & Hn3 & Hrun).
      injection Hrun as <- <-.
      apply int_of_size_Ok in Hn1 as [? _], Hn2 as [? _], Hn3 as [? _].
      split; [done|]. by right.
  - intros (reference & current & ev' & Href & Hcur & Hfit & Hloop & -> & Hlog).
    rewrite Href, Hcur. simpl.
    unfold unsigned_of_size. rewrite decide_True by done. simpl.
    rewrite Nat2Z.id, Hloop. simpl.
    destruct Hlog as [[-> ->] | (-> & (Hf1 & Hf2 & Hf3) & ->)]; [done|].
    unfold int_of_size. by rewrite !decide_True by done.
Qed.

(** *** [setInputCurrent] and the shape of the buffers *)

Lemma resize_vector_length n ev : length (resize_vector indeterminate n ev) = n.
Proof.
  unfold resize_vector, uninitialized_vector. case_decide; [done|].
  by rewrite length_fmap, length_seq.
Qed.

Lemma setInputCurrent_Ok in_ this this' :
  setInputCurrent indeterminate in_ this = Ok this' ↔
  ∃ current, in_ = Some current ∧
    this' = {| reference_ := reference_ this; current_ := Some current;
               errorVector_ := resize_vector indeterminate (length current)
                                 (errorVector_ this);
               weights_ := Ones (length current) 3;
               J_ := Zero (length current) 6 |}.
Proof.
  unfold setInputCurrent. destruct in_ as [current|]; simpl; split.
  - intros [= <-]. by exists current.
  - intros (c & [= <-] & ->). done.
  - done.
  - intros (c & Hc & _). done.
Qed.

Lemma setInputCurrent_buffers_sized current this this' :
  setInputCurrent indeterminate (Some current) this = Ok this' →
  current_ this' = Some current ∧ buffers_sized current this'.
Proof.
  intros Hset. apply setInputCurrent_Ok in Hset as (c & [= <-] & ->).
  split; [done|]. unfold buffers_sized, Ones. simpl.
  split; [apply resize_vector_length|].
  split; [apply Constant_rows|].
  split; [done | apply Constant_well_formed].
Qed.

(** *** [computeJacobian] *)

Lemma jacobian_loop_spec current n (J0 J : MatrixX Dtype) :
  for_each (seq 0 n)
    (λ i J, p ← at_index current i; set_row J i (jacobian_row p)) J0 = Ok J →
  rows J = rows J0 ∧ cols J = cols J0 ∧
  (∀ i, i < n → ∃ p, current !! i = Some p ∧ coeffs J !! i = Some (jacobian_row p)) ∧
  (∀ i, n ≤ i → coeffs J !! i = coeffs J0 !! i).
Proof.
  apply (for_upto_invariant (λ k (M : MatrixX Dtype),
    rows M = rows J0 ∧ cols M = cols J0 ∧
    (∀ i, i < k → ∃ p, current !! i = Some p ∧ coeffs M !! i = Some (jacobian_row p)) ∧
    (∀ i, k ≤ i → coeffs M !! i = coeffs J0 !! i))).
  - repeat split; try done. intros i Hi. lia.
  - intros k M M' Hk (Hrows & Hcols & Hbelow & Habove) Hbody.
    apply bind_Ok in Hbody as (p & Hp & Hbody).
    apply at_index_Ok in Hp.
    apply set_row_Ok in Hbody as (Hkr & Hlen & ->).
    unfold rows in *. simpl.
    split; [by rewrite length_insert|]. split; [done|]. split.
    + intros i Hi. destruct (decide (i = k)) as [->|Hne].
      * exists p. rewrite list_lookup_insert_eq; done.
      * destruct (Hbelow i) as (q & ? & ?); [lia|].
        exists q. rewrite list_lookup_insert_ne; done.
    + intros i Hi. rewrite list_lookup_insert_ne; [|lia]. apply Habove. lia.
Qed.

Lemma jacobian_loop_returns current n (J0 : MatrixX Dtype) :
  n ≤ length current → n ≤ rows J0 → cols J0 = 6 →
  ∃ J, for_each (seq 0 n)
         (λ i J, p ← at_index current i; set_row J i (jacobian_row p)) J0 = Ok J.
Proof.
  intros Hcur Hrows Hcols.
  destruct (for_upto_returns
              (λ _ (M : MatrixX Dtype), rows M = rows J0 ∧ cols M = cols J0) n
              (λ i J, p ← at_index current i; set_row J i (jacobian_row p)) J0)
    as (J & Hrun & _); [done | | by exists J].
  intros k M Hk [HMr HMc].
  destruct (lookup_lt_is_Some_2 current k) as [p Hp]; [lia|].
  exists {| coeffs := <[k := jacobian_row p]> (coeffs M); cols := cols M |}.
  split.
  - apply at_index_Ok in Hp. rewrite Hp. simpl.
    apply set_row_Ok. split; [lia|]. split; [by rewrite HMc, Hcols | done].
  - unfold rows in *. simpl. by rewrite length_insert.
Qed.

Lemma computeJacobian_Ok this this' :
  computeJacobian this = Ok this' ↔
  ∃ current J,
    current_ this = Some current ∧
    (Z.of_nat (length current) ≤ INT_MAX)%Z ∧
    for_each (seq 0 (length current))
      (λ i J, p ← at_index current i; set_row J i (jacobian_row p))
      (Zero (length current) 6) = Ok J ∧
    this' = {| reference_ := reference_ this; current_ := current_ this;
               errorVector_ := errorVector_ this; weights_ := weights_ this;
               J_ := J |}.
Proof.
  unfold computeJacobian, for_upto, setZero. split.
  - intros Hrun.
    apply bind_Ok in Hrun as (current & Hcur & Hrun).
    apply bind_Ok in Hrun as (n & Hn & Hrun).
    apply deref_Ok in Hcur.
    apply int_of_size_Ok in Hn as [Hfit ->].
    rewrite decide_True in Hrun by lia. simpl in Hrun.
    rewrite Nat2Z.id in Hrun.
    apply bind_Ok in Hrun as (J & HJ & Hret).
    injection Hret as <-.
    by exists current, J.
  - intros (current & J & Hcur & Hfit & HJ & ->).
    rewrite Hcur. simpl.
    unfold int_of_size. rewrite decide_True by done. simpl.
    rewrite decide_True by lia. simpl.
    rewrite Nat2Z.id, HJ. done.
Qed.

(** *** The invariant of a bound object *)

Lemma bound_buffers_sized current this :
  bound substractPointcloud indeterminate current this →
  current_ this = Some current ∧ buffers_sized current this.
Proof.
  induction 1 as [this this' Hset | in_ this _ IH
                  | this this' log _ IH Herr | this this' _ IH Hjac].
  - by apply setInputCurrent_buffers_sized in Hset.
  - exact IH.
  - destruct IH as [Hcur (Hev & Hrows & Hcols & Hwf)].
    apply computeError_Ok in Herr
      as (reference & c & ev' & _ & _ & _ & Hloop & -> & _).
    apply residual_loop_spec in Hloop as (Hlen & _).
    split; [done|]. unfold buffers_sized. simpl.
    by rewrite Hlen.
  - destruct IH as [Hcur Hsized].
    apply computeJacobian_Ok in Hjac as (c & J & _ & _ & _ & ->).
    done.
Qed.

(** The conditions under which [computeError] returns. *)
Lemma computeError_returns this reference current :
  bound substractPointcloud indeterminate current this →
  reference_ this = Some reference →
  length (substractPointcloud reference current) ≤ length current →
  counters_fit substractPointcloud reference current →
  ∃ this' log, computeError substractPointcloud this = Ok (this', log).
Proof.
  intros Hbound Href Hsize Hfit.
  apply bound_buffers_sized in Hbound as [Hcur (Hev & Hrows & Hcols & Hwf)].
  destruct (residual_loop_returns (substractPointcloud reference current)
              current (weights_ this)
              (length (substractPointcloud reference current))
              (errorVector_ this)) as [ev' Hloop]; try done; try lia.
  eexists _, (if allFinite ev' then [] else _).
  apply computeError_Ok. exists reference, current, ev'.
  repeat (split; [done || (destruct Hfit as (? & _); unfold INT_MAX, UINT_MAX in *; lia)|]).
  destruct (allFinite ev'); [by left | right; done].
Qed.

Lemma pointwise_difference_length reference current :
  pointwise_difference substractPointcloud →
  length (substractPointcloud reference current) ≤ length current.
Proof.
  intros Hsub.
  destruct (decide (length (substractPointcloud reference current) ≤ length current))
    as [|Hgt]; [done|].
  destruct (lookup_lt_is_Some_2 (substractPointcloud reference current)
              (length current)) as [d Hd]; [lia|].
  destruct (Hsub _ _ _ _ Hd) as (r & c & _ & Hc & _).
  apply lookup_lt_Some in Hc. lia.
Qed.

(** *** The properties of the specification *)

(** C1. For every correspondence [i] (every index of the difference cloud),
    the residual that [computeError] stores in [errorVector_[i]] is
    [w_x·n_x·dx + w_y·n_y·dy + w_z·n_z·dz], where [(dx, dy, dz)] is
    [current_i − reference_i], [(n_x, n_y, n_z)] the normal of current
    point [i] and [(w_x, w_y, w_z)] row [i] of the weight matrix. The call
    returns on an object whose current cloud is bound and whose clouds
    have sizes the loop counters reach. *)
Theorem computeError_residual this reference current :
  pointwise_difference substractPointcloud →
  reference_ this = Some reference →
  current_ this = Some current →
  (bound substractPointcloud indeterminate current this →
   counters_fit substractPointcloud reference current →
   ∃ this' log, computeError substractPointcloud this = Ok (this', log)) ∧
  ∀ this' log,
    computeError substractPointcloud this = Ok (this', log) →
    ∀ i, i < length (substractPointcloud reference current) →
      ∃ r c w_x w_y w_z,
        reference !! i = Some r ∧ current !! i = Some c ∧
        coeff (weights_ this) i 0 = Ok w_x ∧
        coeff (weights_ this) i 1 = Ok w_y ∧
        coeff (weights_ this) i 2 = Ok w_z ∧
        errorVector_ this' !! i =
          Some (w_x * normal_x c * (x c - x r)
                + w_y * normal_y c * (y c - y r)
                + w_z * normal_z c * (z c - z r)).
Proof.
  intros Hsub Href Hcur. split.
  - intros Hbound Hfit.
    apply (computeError_returns this reference current); try done.
    by apply pointwise_difference_length.
  - intros this' log Hrun i Hi.
    apply computeError_Ok in Hrun
      as (reference' & current' & ev' & Href' & Hcur' & _ & Hloop & -> & _).
    assert (reference' = reference) as -> by congruence.
    assert (current' = current) as -> by congruence.
    apply residual_loop_spec in Hloop as (_ & Hbelow & _).
    destruct (Hbelow i Hi) as (d & c & w0 & w1 & w2 & Hd & Hc & Hw0 & Hw1 & Hw2 & Hev).
    destruct (Hsub _ _ _ _ Hd) as (r & c' & Hr & Hc' & Hx & Hy & Hz).
    assert (c' = c) as -> by congruence.
    exists r, c, w0, w1, w2. repeat (split; [done|]).
    simpl. rewrite Hev. unfold residual. by rewrite Hx, Hy, Hz.
Qed.

(** C2. After [computeJacobian], row [i] of the n×6 Jacobian is
    [[n_x, n_y, n_z, y·n_z − z·n_y, z·n_x − x·n_z, y·n_y − y·n_x]] at the
    position and the normal of current point [i], for every index [i] of
    the bound current cloud. The call returns when the size of the cloud
    fits the [int] it is kept in. *)
Theorem computeJacobian_rows this current :
  current_ this = Some current →
  ((Z.of_nat (length current) ≤ INT_MAX)%Z →
   ∃ this', computeJacobian this = Ok this') ∧
  ∀ this',
    computeJacobian this = Ok this' →
    rows (J_ this') = length current ∧ cols (J_ this') = 6 ∧
    ∀ i p, current !! i = Some p →
      coeffs (J_ this') !! i =
        Some [ normal_x p; normal_y p; normal_z p;
               data_y p * normal_z p - data_z p * normal_y p;
               data_z p * normal_x p - data_x p * normal_z p;
               data_y p * normal_y p - data_y p * normal_x p ].
Proof.
  intros Hcur. split.
  - intros Hfit.
    destruct (jacobian_loop_returns current (length current)
                (Zero (length current) 6)) as [J HJ].
    + done.
    + unfold Zero. by rewrite Constant_rows.
    + done.
    + eexists. apply computeJacobian_Ok. by exists current, J.
  - intros this' Hrun.
    apply computeJacobian_Ok in Hrun as (current' & J & Hcur' & _ & HJ & ->).
    assert (current' = current) as -> by congruence.
    apply jacobian_loop_spec in HJ as (Hrows & Hcols & Hbelow & _).
    simpl. unfold Zero in Hrows. rewrite Constant_rows in Hrows.
    split; [done|]. split; [done|].
    intros i p Hp. destruct (Hbelow i) as (q & Hq & Hrow).
    { by apply lookup_lt_Some in Hp. }
    assert (q = p) as -> by congruence. done.
Qed.

(** C6. For every cloud [c], [setInputCurrent(c)] returns with the
    residual vector of length [|c|], the weight matrix [|c|]×3 with every
    entry 1 and the Jacobian the [|c|]×6 zero matrix. *)
Theorem setInputCurrent_resizes (c : PointCloud (PointNormal Dtype)) this :
  ∃ this',
    setInputCurrent indeterminate (Some c) this = Ok this' ∧
    current_ this' = Some c ∧
    length (errorVector_ this') = length c ∧
    rows (weights_ this') = length c ∧ cols (weights_ this') = 3 ∧
    (∀ i j, i < length c → j < 3 → coeff (weights_ this') i j = Ok (of_int 1)) ∧
    rows (J_ this') = length c ∧ cols (J_ this') = 6 ∧
    (∀ i j, i < length c → j < 6 → coeff (J_ this') i j = Ok (of_int 0)).
Proof.
  eexists. split; [by apply setInputCurrent_Ok; exists c|]. simpl.
  split; [done|].
  split; [apply resize_vector_length|].
  split; [apply Constant_rows|]. split; [done|].
  split; [intros i j; apply Constant_coeff|].
  split; [apply Constant_rows|]. split; [done|].
  intros i j; apply Constant_coeff.
Qed.

Lemma nan_report_warnings ev pc_e reference current :
  Forall (λ r, severity r = WARNING) (nan_report ev pc_e reference current).
Proof.
  unfold nan_report.
  repeat (apply Forall_app; split);
    repeat (apply Forall_cons; split; [done|]);
    try apply Forall_nil_2;
    apply Forall_fmap, Forall_true; done.
Qed.

(** C7. When a residual is not finite after the first loop, [computeError]
    does not fail. Every record it logs is a warning; the records hold the
    residual vector, every point of the difference cloud, every reference
    point and every current point. The call returns (under the conditions
    of C10, the sizes within reach of the counters), and the object it
    leaves holds the residual vector as computed, the entry that is not
    finite included. *)
Theorem computeError_non_finite this reference current :
  reference_ this = Some reference →
  current_ this = Some current →
  (bound substractPointcloud indeterminate current this →
   length (substractPointcloud reference current) ≤ length current →
   counters_fit substractPointcloud reference current →
   ∃ this' log, computeError substractPointcloud this = Ok (this', log)) ∧
  ∀ this' log,
    computeError substractPointcloud this = Ok (this', log) →
    allFinite (errorVector_ this') = false →
    Forall (λ r, severity r = WARNING) log ∧
    (∃ text, warning [Text text; StreamVector (errorVector_ this')] ∈ log) ∧
    (∀ p, p ∈ substractPointcloud reference current →
          warning [StreamReferencePoint p] ∈ log) ∧
    (∀ p, p ∈ reference → warning [StreamReferencePoint p] ∈ log) ∧
    (∀ p, p ∈ current → warning [StreamCurrentPoint p] ∈ log) ∧
    (∃ i a, errorVector_ this' !! i = Some a ∧ isfinite a = false) ∧
    for_each (seq 0 (length (substractPointcloud reference current)))
      (computeError_body (substractPointcloud reference current) current
         (weights_ this)) (errorVector_ this) = Ok (errorVector_ this') ∧
    reference_ this' = reference_ this ∧ current_ this' = current_ this ∧
    weights_ this' = weights_ this ∧ J_ this' = J_ this.
Proof.
  intros Href Hcur. split.
  - intros Hbound Hsize Hfit.
    by apply (computeError_returns this reference current).
  - intros this' log Hrun Hnan.
    apply computeError_Ok in Hrun
      as (reference' & current' & ev' & Href' & Hcur' & _ & Hloop & -> & Hlog).
    assert (reference' = reference) as -> by congruence.
    assert (current' = current) as -> by congruence.
    simpl in *.
    destruct Hlog as [[Hfin _] | (_ & _ & ->)]; [congruence|].
    split; [apply nan_report_warnings|].
    unfold nan_report.
    split; [eexists; apply list_elem_of_here|].
    split.
    { intros p Hp. do 2 apply list_elem_of_further.
      apply elem_of_app. left. apply list_elem_of_fmap. by exists p. }
    split.
    { intros p Hp. do 2 apply list_elem_of_further.
      apply elem_of_app. right. apply list_elem_of_further.
      apply elem_of_app. left. apply list_elem_of_fmap. by exists p. }
    split.
    { intros p Hp. do 2 apply list_elem_of_further.
      apply elem_of_app. right. apply list_elem_of_further.
      apply elem_of_app. right. apply list_elem_of_further.
      apply list_elem_of_fmap. by exists p. }
    split; [by apply allFinite_false|].
    done.
Qed.

(** C9. [setInputReference(r)] rebinds the reference pointer and nothing
    else: the residual vector, the weight matrix and the Jacobian (and the
    current cloud) are what they were, whatever the cardinality of [r]. *)
Theorem setInputReference_frame (r : Ptr (PointCloud PointReference)) this :
  reference_ (setInputReference r this) = r ∧
  current_ (setInputReference r this) = current_ this ∧
  errorVector_ (setInputReference r this) = errorVector_ this ∧
  weights_ (setInputReference r this) = weights_ this ∧
  J_ (setInputReference r this) = J_ this.
Proof. done. Qed.

(** C10. On an object whose buffers [setInputCurrent] sized for the
    current cloud, and when the difference cloud is no longer than the
    current cloud, every index that the loop of [computeError] uses is one
    of the residual vector, of the rows of the weight matrix (whose three
    columns exist) and of the current cloud. No access of the call is out
    of range: the only fault left is a size beyond the loop counters, and
    the call returns when the sizes are within their reach. *)
Theorem computeError_in_bounds this reference current :
  bound substractPointcloud indeterminate current this →
  reference_ this = Some reference →
  length (substractPointcloud reference current) ≤ length current →
  (∀ i, i < length (substractPointcloud reference current) →
     i < length (errorVector_ this) ∧
     i < rows (weights_ this) ∧ cols (weights_ this) = 3 ∧
     i < length current) ∧
  (∀ f, computeError substractPointcloud this = Fault f → f = Unrepresentable) ∧
  (counters_fit substractPointcloud reference current →
   ∃ this' log, computeError substractPointcloud this = Ok (this', log)).
Proof.
  intros Hbound Href Hsize.
  split; [|split].
  - apply bound_buffers_sized in Hbound as [Hcur (Hev & Hrows & Hcols & Hwf)].
    intros i Hi. repeat split; try done; lia.
  - apply bound_buffers_sized in Hbound as [Hcur (Hev & Hrows & Hcols & Hwf)].
    destruct (residual_loop_returns (substractPointcloud reference current)
                current (weights_ this)
                (length (substractPointcloud reference current))
                (errorVector_ this)) as [ev' Hloop]; try done; try lia.
    intros f. unfold computeError, for_upto.
    rewrite Href, Hcur. simpl.
    unfold unsigned_of_size. case_decide; simpl; [|congruence].
    rewrite Nat2Z.id, Hloop. simpl.
    destruct (allFinite ev'); [done|].
    unfold int_of_size. repeat case_decide; simpl; congruence.
  - intros Hfit. by apply (computeError_returns this reference current).
Qed.
End ErrorPointToPlaneFacts.

(** ** The records of the engine *)

Section IcpFacts.
Context {Dtype : Type} `{Scalar Dtype}.
Context {PointSource PointTarget Error_ MEstimator : Type}.

Implicit Types (r : IcpResults_ Dtype PointSource).
Implicit Types (this : Icp Dtype PointSource PointTarget Error_ MEstimator).

Lemma decimal_literal_10e_5 : decimal_literal 10 (-5) = (1 # 10000)%Q.
Proof. reflexivity. Qed.

(** C3. A default-constructed [IcpParameters_] has [lambda = 1],
    [max_iter = 10], [min_variation = 1e-4] (the literal [10e-5] of the
    source denotes 1/10000), [max_correspondance_distance] the largest
    value [std::numeric_limits] gives for the scalar type, and
    [initial_guess] the zero vector of six rows. *)
Theorem IcpParameters_defaults :
  lambda (IcpParameters_ctor (Dtype := Dtype)) = of_int 1 ∧
  max_iter (IcpParameters_ctor (Dtype := Dtype)) = 10%Z ∧
  min_variation (IcpParameters_ctor (Dtype := Dtype)) = of_double (1 # 10000)%Q ∧
  max_correspondance_distance (IcpParameters_ctor (Dtype := Dtype)) = numeric_limits_max ∧
  rows (initial_guess (IcpParameters_ctor (Dtype := Dtype))) = 6 ∧
  cols (initial_guess (IcpParameters_ctor (Dtype := Dtype))) = 1 ∧
  ∀ i, i < 6 →
    coeff (initial_guess (IcpParameters_ctor (Dtype := Dtype))) i 0 = Ok (of_int 0).
Proof.
  simpl. rewrite decimal_literal_10e_5.
  repeat (split; [done|]).
  intros i Hi. apply Constant_coeff; lia.
Qed.

Lemma uninitialized_matrix_coeff (indeterminate : nat → Dtype) (n m i j : nat) :
  i < n → j < m →
  coeff (uninitialized_matrix indeterminate n m) i j = Ok (indeterminate (i * m + j)).
Proof.
  intros Hi Hj. apply coeff_Ok. simpl.
  exists ((λ j, indeterminate (i * m + j)) <$> seq 0 m). split.
  - rewrite list_lookup_fmap, lookup_seq_lt by done. done.
  - rewrite list_lookup_fmap, lookup_seq_lt by done. done.
Qed.

(** C4, as the code has it. On an engine on which [run()] was never
    called, [getResults()] returns the default-constructed Result Record
    and does not fail: the error history is empty and no cloud is
    registered. The constructor does not call [clear()]; the 4×4
    transformation is the zero matrix once [clear()] has run on the
    record. *)
Theorem getResults_before_run (Error_ctor : Error_) (MEstimator_ctor : MEstimator)
    (indeterminate : nat → Dtype) :
  let this : Icp Dtype PointSource PointTarget Error_ MEstimator :=
    Icp_ctor Error_ctor MEstimator_ctor indeterminate in
  registrationError (getResults this) = [] ∧
  registeredPointCloud (getResults this) = None ∧
  rows (transformation (getResults this)) = 4 ∧
  cols (transformation (getResults this)) = 4 ∧
  cleared (clear (getResults this)).
Proof. simpl. repeat (split; [done|]). done. Qed.

(** C5, as the code has it. [setInputTarget(reference)], from any state of
    the engine, stores the reference cloud and builds the kd-tree from it.
    It leaves the Result Record as it is: [getResults()] returns after the
    call what it returned before; the source cloud and the parameters are
    kept too. *)
Theorem setInputTarget_effect (reference : Ptr (PointCloud PointTarget)) this :
  target_ (setInputTarget reference this) = reference ∧
  input_ (kdtree_ (setInputTarget reference this)) = reference ∧
  getResults (setInputTarget reference this) = getResults this ∧
  source_ (setInputTarget reference this) = source_ this ∧
  getParameters (setInputTarget reference this) = getParameters this.
Proof. done. Qed.

Lemma last_size_minus_one (l : list Dtype) (a : Dtype) :
  last l = Some a → l !! size_minus_one (length l) = Some a.
Proof.
  rewrite last_lookup. destruct l as [|b l]; [done|]. done.
Qed.

(** C8. On a Result Record whose history is not empty, [getFinalError()]
    returns the last element of the history. The history reads from the
    initial error to the final one: the stream operator prints its first
    element as the initial error and the value of [getFinalError()], its
    last element, as the final error. *)
Theorem getFinalError_last r (initial final : Dtype) :
  head (registrationError r) = Some initial →
  last (registrationError r) = Some final →
  getFinalError r = Ok final ∧
  ((Z.of_nat (length (registrationError r)) ≤ INT_MAX)%Z →
   ∃ rest, print_IcpResults r =
     Ok ([ Chars "Initial error: "; Number initial;
           Chars (newline ++ "Final error: "); Number final ] ++ rest)).
Proof.
  intros Hhead Hlast.
  assert (getFinalError r = Ok final) as Hfinal.
  { unfold getFinalError. apply at_index_Ok. by apply last_size_minus_one. }
  split; [done|].
  intros Hfit. unfold print_IcpResults.
  case_decide as Hnil; [by rewrite Hnil in Hhead|].
  rewrite head_lookup in Hhead. apply at_index_Ok in Hhead.
  rewrite Hhead, Hfinal. simpl.
  unfold int_of_size. rewrite decide_True by done. simpl.
  eexists. done.
Qed.
End IcpFacts.

(** ** The difference cloud of the specification *)

Lemma substractPointcloud_xyz_pointwise {Dtype} `{Scalar Dtype} :
  pointwise_difference (substractPointcloud_xyz (Dtype := Dtype)).
Proof.
  intros reference current i d Hd. unfold substractPointcloud_xyz in Hd.
  apply lookup_zip_with_Some in Hd as (r & c & -> & Hr & Hc).
  by exists r, c.
Qed.

(** ** The code on concrete inputs *)

Example computeError_kernel_Z :
  computeError substractPointcloud_xyz kernel_Z =
    Ok ({| reference_ := Some cloud_reference; current_ := Some cloud_current;
           errorVector_ := [2; 2]%Z; weights_ := Ones 2 3; J_ := Zero 2 6 |}, []).
Proof. reflexivity. Qed.

Example computeJacobian_kernel_Z :
  J_ <$> (computeJacobian kernel_Z) =
    Ok {| coeffs := [[0; 0; 1; 2; -1; 0]; [1; 0; 0; 0; 6; -5]]%Z; cols := 6 |}.
Proof. reflexivity. Qed.

Example computeJacobian_unbound :
  computeJacobian (unbound (Dtype := Z) (PointReference := PointXYZ Z)) = Fault NullPointer.
Proof. reflexivity. Qed.

Example computeError_reference_longer :
  computeError (λ reference _, reference)
    (setInputReference (Some cloud_target) kernel_Z) = Fault OutOfRange.
Proof. reflexivity. Qed.

Example computeError_kernel_double :
  (λ out, (errorVector_ out.1, length out.2)) <$>
    computeError substractPointcloud_xyz kernel_double = Ok ([infinity; 1%float], 10).
Proof. vm_compute. reflexivity. Qed.

Example IcpParameters_double :
  (IcpParameters_ctor : IcpParameters_ float) =
    {| lambda := 1%float; max_iter := 10;
       min_variation := 0x1.a36e2eb1c432dp-14%float;
       max_correspondance_distance := 0x1.fffffffffffffp+1023%float;
       initial_guess := {| coeffs := [[0]; [0]; [0]; [0]; [0]; [0]]%float; cols := 1 |} |}.
Proof. vm_compute. reflexivity. Qed.

Example setInputReference_no_resize :
  length (errorVector_ (setInputReference (Some cloud_target) kernel_Z)) = 2 ∧
  rows (weights_ (setInputReference (Some cloud_target) kernel_Z)) = 2 ∧
  rows (J_ (setInputReference (Some cloud_target) kernel_Z)) = 2 ∧
  length cloud_target = 3.
Proof. repeat split. Qed.

Example computeError_cloud_grown :
  computeError substractPointcloud_xyz kernel_Z_grown = Fault OutOfRange.
Proof. reflexivity. Qed.

Example numeric_limits_max_double :
  isfinite (numeric_limits_max : float) = true ∧
  PrimFloat.next_up (numeric_limits_max : float) = infinity.
Proof. split; vm_compute; reflexivity. Qed.

Example getFinalError_empty :
  getFinalError (clear (getResults engine_after_run)) = Fault OutOfRange.
Proof. unfold getFinalError. simpl. unfold at_index. by rewrite lookup_nil. Qed.

Example getFinalError_engine_after_run :
  getFinalError (getResults engine_after_run) = Ok 1%Z.
Proof. reflexivity. Qed.

(** ** The theorems at concrete inputs *)

(** C1 on the two-point clouds over the integers. *)
Lemma computeError_residual_witness :
  pointwise_difference (substractPointcloud_xyz (Dtype := Z)) ∧
  reference_ kernel_Z = Some cloud_reference ∧
  current_ kernel_Z = Some cloud_current ∧
  (∃ this' log, computeError substractPointcloud_xyz kernel_Z = Ok (this', log)) ∧
  (∀ this' log,
     computeError substractPointcloud_xyz kernel_Z = Ok (this', log) →
     ∀ i, i < length (substractPointcloud_xyz cloud_reference cloud_current) →
       ∃ r c w_x w_y w_z,
         cloud_reference !! i = Some r ∧ cloud_current !! i = Some c ∧
         coeff (weights_ kernel_Z) i 0 = Ok w_x ∧
         coeff (weights_ kernel_Z) i 1 = Ok w_y ∧
         coeff (weights_ kernel_Z) i 2 = Ok w_z ∧
         errorVector_ this' !! i =
           Some (w_x * normal_x c * (x c - x r)
                 + w_y * normal_y c * (y c - y r)
                 + w_z * normal_z c * (z c - z r))%D).
Proof.
  destruct (computeError_residual substractPointcloud_xyz stale_Z
              kernel_Z cloud_reference cloud_current
              substractPointcloud_xyz_pointwise eq_refl eq_refl)
    as [Hreturns Hresidual].
  split; [exact substractPointcloud_xyz_pointwise|].
  split; [reflexivity|]. split; [reflexivity|].
  split; [|exact Hresidual].
  apply Hreturns.
  - apply (bound_setInputReference _ _ _ (Some cloud_reference) kernel_Z_current_only).
    apply (bound_setInputCurrent _ _ _ unbound). reflexivity.
  - unfold counters_fit, INT_MAX. vm_compute. repeat split; discriminate.
Defined.

(** C2 on the two-point cloud over the integers. *)
Lemma computeJacobian_rows_witness :
  current_ kernel_Z = Some cloud_current ∧
  (∃ this', computeJacobian kernel_Z = Ok this') ∧
  (∀ this',
     computeJacobian kernel_Z = Ok this' →
     rows (J_ this') = 2 ∧ cols (J_ this') = 6 ∧
     ∀ i p, cloud_current !! i = Some p →
       coeffs (J_ this') !! i =
         Some [ normal_x p; normal_y p; normal_z p;
                data_y p * normal_z p - data_z p * normal_y p;
                data_z p * normal_x p - data_x p * normal_z p;
                data_y p * normal_y p - data_y p * normal_x p ]%D).
Proof.
  destruct (computeJacobian_rows kernel_Z cloud_current eq_refl)
    as [Hreturns Hrows].
  split; [reflexivity|]. split; [|exact Hrows].
  apply Hreturns. vm_compute. discriminate.
Defined.

(** C7 on the cloud over [double] whose first point lies at infinity. *)
Lemma computeError_non_finite_witness :
  reference_ kernel_double = Some cloud_reference_double ∧
  current_ kernel_double = Some cloud_current_inf ∧
  ∃ this' log,
    computeError substractPointcloud_xyz kernel_double = Ok (this', log) ∧
    allFinite (errorVector_ this') = false ∧
    Forall (λ r, severity r = WARNING) log ∧
    errorVector_ this' = [infinity; 1%float] ∧
    warning [StreamCurrentPoint (mkPointNormal infinity 0 0 1 0 0 0)%float] ∈ log.
Proof.
  split; [reflexivity|]. split; [reflexivity|].
  destruct (computeError_non_finite substractPointcloud_xyz stale_double
              kernel_double cloud_reference_double cloud_current_inf
              eq_refl eq_refl) as [Hreturns Hreport].
  destruct Hreturns as (this' & log & Hrun).
  - apply (bound_setInputReference _ _ _ (Some cloud_reference_double)
             kernel_double_current_only).
    apply (bound_setInputCurrent _ _ _ unbound). reflexivity.
  - vm_compute. lia.
  - unfold counters_fit, INT_MAX. vm_compute. repeat split; discriminate.
  - exists this', log. split; [exact Hrun|].
    assert (errorVector_ this' = [infinity; 1%float]) as Hvector.
    { vm_compute in Hrun. by injection Hrun as <- _. }
    assert (allFinite (errorVector_ this') = false) as Hnan.
    { rewrite Hvector. reflexivity. }
    destruct (Hreport this' log Hrun Hnan) as (Hwarn & _ & _ & _ & Hcur & _).
    split; [exact Hnan|]. split; [exact Hwarn|]. split; [exact Hvector|].
    apply Hcur. apply list_elem_of_here.
Defined.

(** C8 on the record of an engine that ran. *)
Lemma getFinalError_last_witness :
  head (registrationError (getResults engine_after_run)) = Some 3%Z ∧
  last (registrationError (getResults engine_after_run)) = Some 1%Z ∧
  getFinalError (getResults engine_after_run) = Ok 1%Z ∧
  ∃ rest, print_IcpResults (getResults engine_after_run) =
    Ok ([ Chars "Initial error: "; Number 3%Z;
          Chars (newline ++ "Final error: "); Number 1%Z ] ++ rest).
Proof.
  destruct (getFinalError_last (getResults engine_after_run) 3%Z 1%Z eq_refl eq_refl)
    as [Hfinal Hprint].
  split; [reflexivity|]. split; [reflexivity|]. split; [exact Hfinal|].
  apply Hprint. vm_compute. discriminate.
Defined.

(** C10 on the two-point clouds over the integers. *)
Lemma computeError_in_bounds_witness :
  bound substractPointcloud_xyz stale_Z cloud_current kernel_Z ∧
  reference_ kernel_Z = Some cloud_reference ∧
  length (substractPointcloud_xyz cloud_reference cloud_current) ≤ length cloud_current ∧
  (∀ i, i < length (substractPointcloud_xyz cloud_reference cloud_current) →
     i < length (errorVector_ kernel_Z) ∧
     i < rows (weights_ kernel_Z) ∧ cols (weights_ kernel_Z) = 3 ∧
     i < length cloud_current) ∧
  (∀ f, computeError substractPointcloud_xyz kernel_Z = Fault f → f = Unrepresentable) ∧
  ∃ this' log, computeError substractPointcloud_xyz kernel_Z = Ok (this', log).
Proof.
  assert (bound substractPointcloud_xyz stale_Z cloud_current kernel_Z) as Hbound.
  { apply (bound_setInputReference _ _ _ (Some cloud_reference) kernel_Z_current_only).
    apply (bound_setInputCurrent _ _ _ unbound). reflexivity. }
  assert (length (substractPointcloud_xyz cloud_reference cloud_current)
          ≤ length cloud_current) as Hsize.
  { vm_compute. lia. }
  destruct (computeError_in_bounds substractPointcloud_xyz stale_Z
              kernel_Z cloud_reference cloud_current Hbound eq_refl Hsize)
    as (Hindex & Hfault & Hreturns).
  split; [exact Hbound|]. split; [reflexivity|]. split; [exact Hsize|].
  split; [exact Hindex|]. split; [exact Hfault|].
  apply Hreturns. unfold counters_fit, INT_MAX. vm_compute. repeat split; discriminate.
Defined.

(** ** Where the code departs from the specification *)

(** C4 as stated fails: a new engine on storage that holds sevens returns a
    record whose transformation is not the zero matrix. *)
Lemma new_engine_results_not_cleared :
  ¬ cleared (getResults engine_new).
Proof.
  intros [_ Hzero]. vm_compute in Hzero. discriminate.
Qed.

(** C5 as stated fails: after [setInputTarget] on an engine that holds the
    results of a run, [getResults()] returns those same results. *)
Lemma setInputTarget_keeps_results :
  ¬ invalidates_results engine_after_run
      (setInputTarget (Some cloud_target) engine_after_run).
Proof.
  intros Hinvalid. apply Hinvalid; [discriminate | reflexivity].
Qed.

(** ** Further properties of the point-to-plane kernel *)

Section ErrorPointToPlaneMore.
Context {Dtype : Type} `{Scalar Dtype}.
Context {PointReference : Type} `{XYZ Dtype PointReference}.

Local Open Scope dtype_scope.

Variable substractPointcloud :
  PointCloud PointReference → PointCloud (PointNormal Dtype) → PointCloud PointReference.
Variable indeterminate : nat → Dtype.

Implicit Types (this : ErrorPointToPlane Dtype PointReference).
Implicit Types (reference pc_e : PointCloud PointReference).
Implicit Types (current : PointCloud (PointNormal Dtype)).
Implicit Types (weights : MatrixX Dtype) (ev : VectorX Dtype).

(** A loop faults with a fault of one of its turns. *)
Lemma for_each_Fault {S} (idx : list nat) (body : nat → S → result S) (s : S) (f : fault) :
  for_each idx body s = Fault f → ∃ i t, i ∈ idx ∧ body i t = Fault f.
Proof.
  revert s. induction idx as [|i idx IH]; intros s; simpl; [done|].
  destruct (body i s) as [s1|g] eqn:Hbody; simpl.
  - intros Hrest. destruct (IH _ Hrest) as (j & t & Hj & Hfault).
    exists j, t. split; [by apply list_elem_of_further | done].
  - intros [= ->]. exists i, s. split; [apply list_elem_of_here | done].
Qed.

Lemma at_index_Fault {T} (v : list T) (i : nat) (f : fault) :
  at_index v i = Fault f → f = OutOfRange.
Proof. unfold at_index. destruct (v !! i); congruence. Qed.

Lemma coeff_Fault weights (i j : nat) (f : fault) :
  coeff weights i j = Fault f → f = OutOfRange.
Proof.
  unfold coeff. destruct (at_index (coeffs weights) i) as [row|g] eqn:Hrow; simpl.
  - apply at_index_Fault.
  - intros [= <-]. by apply at_index_Fault in Hrow.
Qed.

(** A turn of the residual loop has no fault but an access out of range. *)
Lemma computeError_body_Fault pc_e current weights i ev (f : fault) :
  computeError_body pc_e current weights i ev = Fault f → f = OutOfRange.
Proof.
  unfold computeError_body.
  destruct (at_index pc_e i) as [p|g] eqn:Hp; simpl;
    [|intros [= <-]; by apply at_index_Fault in Hp].
  destruct (at_index current i) as [n|g] eqn:Hn; simpl;
    [|intros [= <-]; by apply at_index_Fault in Hn].
  destruct (coeff weights i 0) as [w0|g] eqn:Hw0; simpl;
    [|intros [= <-]; by apply coeff_Fault in Hw0].
  destruct (coeff weights i 1) as [w1|g] eqn:Hw1; simpl;
    [|intros [= <-]; by apply coeff_Fault in Hw1].
  destruct (coeff weights i 2) as [w2|g] eqn:Hw2; simpl;
    [|intros [= <-]; by apply coeff_Fault in Hw2].
  unfold set_coeff. case_decide; congruence.
Qed.

(** The matrix that the loop of [computeJacobian] builds from the zero
    matrix: one row for each current point. *)
Lemma jacobian_loop_closed_form current (J : MatrixX Dtype) :
  for_each (seq 0 (length current))
    (λ i J, p ← at_index current i; set_row J i (jacobian_row p))
    (Zero (length current) 6) = Ok J →
  J = {| coeffs := jacobian_row <$> current; cols := 6 |}.
Proof.
  intros HJ. apply jacobian_loop_spec in HJ as (Hrows & Hcols & Hbelow & _).
  unfold Zero in Hrows. rewrite Constant_rows in Hrows.
  destruct J as [cs c]. unfold rows in Hrows. simpl in *. subst c. f_equal.
  apply list_eq. intros i. rewrite list_lookup_fmap.
  destruct (decide (i < length current)) as [Hi|Hi].
  - destruct (Hbelow i Hi) as (p & Hp & Hrow). rewrite Hrow. symmetry.
    apply fmap_Some. by exists p.
  - rewrite !lookup_ge_None_2; [done | lia | lia].
Qed.

(** X1. [computeJacobian] overwrites [J_]: whatever the matrix held, it is
    afterwards the list of the rows of the current points, one for each
    point and in their order, six columns wide. The rest of the object is
    untouched. *)
Theorem computeJacobian_overwrites this this' current :
  current_ this = Some current →
  computeJacobian this = Ok this' →
  J_ this' = {| coeffs := jacobian_row <$> current; cols := 6 |} ∧
  reference_ this' = reference_ this ∧ current_ this' = current_ this ∧
  errorVector_ this' = errorVector_ this ∧ weights_ this' = weights_ this.
Proof.
  intros Hcur Hrun.
  apply computeJacobian_Ok in Hrun as (current' & J & Hcur' & _ & HJ & ->).
  assert (current' = current) as -> by congruence.
  simpl. split; [by apply jacobian_loop_closed_form | done].
Qed.

(** X2. A second call of [computeJacobian] changes nothing: the call that
    returned [this'] returns [this'] again on [this']. *)
Theorem computeJacobian_idempotent this this' :
  computeJacobian this = Ok this' → computeJacobian this' = Ok this'.
Proof.
  intros Hrun.
  apply computeJacobian_Ok in Hrun as (current & J & Hcur & Hfit & HJ & ->).
  apply computeJacobian_Ok. by exists current, J.
Qed.


(** X4. [computeError] writes the residual vector at the indices of the
    difference cloud and nowhere else: the vector keeps its length, an
    entry beyond the difference cloud keeps the value it had, and the
    weights, the Jacobian and the two cloud pointers are untouched. *)
Theorem computeError_keeps_rest this this' log reference current :
  computeError substractPointcloud this = Ok (this', log) →
  reference_ this = Some reference →
  current_ this = Some current →
  length (errorVector_ this') = length (errorVector_ this) ∧
  (∀ i, length (substractPointcloud reference current) ≤ i →
        errorVector_ this' !! i = errorVector_ this !! i) ∧
  weights_ this' = weights_ this ∧ J_ this' = J_ this ∧
  reference_ this' = reference_ this ∧ current_ this' = current_ this.
Proof.
  intros Hrun Href Hcur.
  apply computeError_Ok in Hrun
    as (reference' & current' & ev' & Href' & Hcur' & _ & Hloop & -> & _).
  assert (reference' = reference) as -> by congruence.
  assert (current' = current) as -> by congruence.
  apply residual_loop_spec in Hloop as (Hlen & _ & Habove).
  simpl. done.
Qed.

(** X5. [computeError] logs if and only if the residual vector it leaves
    has an entry that is not finite; an entry beyond the difference cloud,
    which the call did not write, counts as well. The report has four
    headers and one record for each point of the three clouds. *)
Theorem computeError_logs_iff this this' log reference current :
  computeError substractPointcloud this = Ok (this', log) →
  reference_ this = Some reference →
  current_ this = Some current →
  (log = [] ↔ allFinite (errorVector_ this') = true) ∧
  (allFinite (errorVector_ this') = false →
   length log = (4 + length (substractPointcloud reference current)
                 + length reference + length current)%nat).
Proof.
  intros Hrun Href Hcur.
  apply computeError_Ok in Hrun
    as (reference' & current' & ev' & Href' & Hcur' & _ & _ & -> & Hlog).
  assert (reference' = reference) as -> by congruence.
  assert (current' = current) as -> by congruence.
  simpl. destruct Hlog as [[Hfin ->] | (Hnan & _ & ->)].
  - split; [done | congruence].
  - split; [split; [done | congruence]|].
    intros _. unfold nan_report.
    rewrite !length_app, !length_fmap. simpl. lia.
Qed.

(** Run again on the vector it produced, the residual loop produces the
    same vector. *)
Lemma residual_loop_fixpoint pc_e current weights n ev ev' :
  for_each (seq 0 n) (computeError_body pc_e current weights) ev = Ok ev' →
  for_each (seq 0 n) (computeError_body pc_e current weights) ev' = Ok ev'.
Proof.
  intros Hloop. apply residual_loop_spec in Hloop as (_ & Hbelow & _).
  destruct (for_upto_returns (λ _ t, t = ev') n
              (computeError_body pc_e current weights) ev')
    as (t & Hrun & ->); [done | | done].
  intros k t Hk ->.
  destruct (Hbelow k Hk) as (p & c & w0 & w1 & w2 & Hp & Hc & Hw0 & Hw1 & Hw2 & Hev).
  exists ev'. split; [|done].
  apply computeError_body_Ok. exists p, c, w0, w1, w2.
  repeat (split; [done|]). split; [by apply lookup_lt_Some in Hev|].
  symmetry. by apply list_insert_id.
Qed.

(** X6. A second call of [computeError] on unchanged clouds changes
    nothing and logs the same records. *)
Theorem computeError_idempotent this this' log :
  computeError substractPointcloud this = Ok (this', log) →
  computeError substractPointcloud this' = Ok (this', log).
Proof.
  intros Hrun.
  apply computeError_Ok in Hrun
    as (reference & current & ev' & Href & Hcur & Hfit & Hloop & -> & Hlog).
  apply computeError_Ok. exists reference, current, ev'. simpl.
  repeat (split; [done|]).
  split; [by apply (residual_loop_fixpoint _ _ _ _ (errorVector_ this)) | done].
Qed.

(** X7. [computeError] and [computeJacobian] can be called in either
    order: the Jacobian first and the residuals second leave the object,
    and log the records, that the residuals first and the Jacobian second
    do. *)
Theorem computeError_computeJacobian_commute this this_J this' log :
  computeJacobian this = Ok this_J →
  computeError substractPointcloud this_J = Ok (this', log) →
  ∃ this_e,
    computeError substractPointcloud this = Ok (this_e, log) ∧
    computeJacobian this_e = Ok this'.
Proof.
  intros HJ Herr.
  apply computeJacobian_Ok in HJ as (current & J & Hcur & HfitJ & HloopJ & ->).
  apply computeError_Ok in Herr
    as (reference & current' & ev' & Href & Hcur' & Hfit & Hloop & -> & Hlog).
  simpl in *.
  exists {| reference_ := reference_ this; current_ := current_ this;
            errorVector_ := ev'; weights_ := weights_ this; J_ := J_ this |}.
  split.
  - apply computeError_Ok. by exists reference, current', ev'.
  - apply computeJacobian_Ok. by exists current, J.
Qed.

Lemma Constant_coeff_inv (r c : nat) (v w : Dtype) (i j : nat) :
  coeff (Constant r c v) i j = Ok w → w = v.
Proof.
  intros Hw. apply coeff_Ok in Hw as (row & Hrow & Hw). simpl in Hrow.
  apply lookup_replicate in Hrow as [-> _].
  by apply lookup_replicate in Hw as [-> _].
Qed.

(** The methods of the class leave the weights that [setInputCurrent] set,
    and a Jacobian of its shape. *)
Lemma bound_unit_weights current this :
  bound substractPointcloud indeterminate current this →
  weights_ this = Ones (length current) 3 ∧
  rows (J_ this) = length current ∧ cols (J_ this) = 6.
Proof.
  induction 1 as [this this' Hset | in_ this _ IH
                  | this this' log Hbound IH Herr | this this' Hbound IH Hjac].
  - apply setInputCurrent_Ok in Hset as (c & [= <-] & ->). simpl.
    split; [done|]. split; [apply Constant_rows | done].
  - exact IH.
  - apply computeError_Ok in Herr as (reference & c & ev' & _ & _ & _ & _ & -> & _).
    exact IH.
  - apply bound_buffers_sized in Hbound as [Hcur _].
    apply computeJacobian_Ok in Hjac as (c & J & Hcur' & _ & HJ & ->).
    assert (c = current) as -> by congruence.
    apply jacobian_loop_closed_form in HJ as ->. simpl.
    split; [apply IH|]. split; [|done].
    unfold rows. simpl. apply length_fmap.
Qed.

(** X8. From [setInputCurrent] on, through any calls of
    [setInputReference], [computeError] and [computeJacobian], the object
    keeps the current cloud it was given, a residual vector of its
    cardinality, the weight matrix of ones and a Jacobian of the cloud's
    cardinality by six. *)
Theorem bound_keeps_shape current this :
  bound substractPointcloud indeterminate current this →
  current_ this = Some current ∧
  length (errorVector_ this) = length current ∧
  weights_ this = Ones (length current) 3 ∧
  rows (J_ this) = length current ∧ cols (J_ this) = 6.
Proof.
  intros Hbound.
  destruct (bound_buffers_sized _ _ _ _ Hbound) as [Hcur (Hev & _)].
  destruct (bound_unit_weights _ _ Hbound) as (Hw & HJr & HJc).
  done.
Qed.

(** X9. With the methods of this class alone the residuals are not
    weighted: on an object that went from [setInputCurrent] through these
    methods, [computeError] stores at [i] the sum of the three products
    with the weight [Dtype(1)], for the point [d] of the difference cloud
    and the normal of the current point [c]. *)
Theorem computeError_unit_weights this this' log reference current :
  bound substractPointcloud indeterminate current this →
  reference_ this = Some reference →
  computeError substractPointcloud this = Ok (this', log) →
  ∀ i d c,
    substractPointcloud reference current !! i = Some d →
    current !! i = Some c →
    errorVector_ this' !! i =
      Some (of_int 1 * normal_x c * x d
            + of_int 1 * normal_y c * y d
            + of_int 1 * normal_z c * z d).
Proof.
  intros Hbound Href Hrun i d c Hd Hc.
  destruct (bound_buffers_sized _ _ _ _ Hbound) as [Hcur _].
  destruct (bound_unit_weights _ _ Hbound) as (Hw & _).
  apply computeError_Ok in Hrun
    as (reference' & current' & ev' & Href' & Hcur' & _ & Hloop & -> & _).
  assert (reference' = reference) as -> by congruence.
  assert (current' = current) as -> by congruence.
  apply residual_loop_spec in Hloop as (_ & Hbelow & _).
  destruct (Hbelow i) as (d' & c' & w0 & w1 & w2 & Hd' & Hc' & Hw0 & Hw1 & Hw2 & Hev).
  { by apply lookup_lt_Some in Hd. }
  assert (d' = d) as -> by congruence.
  assert (c' = c) as -> by congruence.
  rewrite Hw in Hw0, Hw1, Hw2. unfold Ones in *.
  apply Constant_coeff_inv in Hw0 as ->, Hw1 as ->, Hw2 as ->.
  simpl. by rewrite Hev.
Qed.



(** X12. With an empty difference cloud and a residual vector whose
    entries are finite, [computeError] has nothing to do: it returns the
    object as it is and logs nothing. *)
Theorem computeError_empty_difference this reference current :
  reference_ this = Some reference →
  current_ this = Some current →
  substractPointcloud reference current = [] →
  allFinite (errorVector_ this) = true →
  computeError substractPointcloud this = Ok (this, []).
Proof.
  intros Href Hcur Hempty Hfin.
  apply computeError_Ok. exists reference, current, (errorVector_ this).
  rewrite Hempty. simpl.
  repeat (split; [done|]).
  split; [by destruct this | by left].
Qed.

(** X19. The size condition of [computeError] is needed: on an object
    that went from [setInputCurrent] through the methods of the class, a
    difference cloud longer than the current cloud (and within reach of
    the loop counter) makes the loop read the current cloud past its end.
    The call does not return. *)
Theorem computeError_out_of_range this reference current :
  bound substractPointcloud indeterminate current this →
  reference_ this = Some reference →
  length current < length (substractPointcloud reference current) →
  (Z.of_nat (length (substractPointcloud reference current)) ≤ UINT_MAX)%Z →
  computeError substractPointcloud this = Fault OutOfRange.
Proof.
  intros Hbound Href Hlong Hfit.
  apply bound_buffers_sized in Hbound as [Hcur (Hev & Hrows & Hcols & Hwf)].
  destruct (residual_loop_returns (substractPointcloud reference current)
              current (weights_ this) (length current) (errorVector_ this))
    as [ev1 Hloop]; try done; try lia.
  destruct (lookup_lt_is_Some_2 (substractPointcloud reference current)
              (length current)) as [p Hp]; [lia|].
  unfold computeError, for_upto. rewrite Href, Hcur. simpl.
  unfold unsigned_of_size. rewrite decide_True by done. simpl.
  rewrite Nat2Z.id.
  replace (length (substractPointcloud reference current))
    with (length current
          + S (length (substractPointcloud reference current) - S (length current)))%nat
    at 1 by lia.
  assert (computeError_body (substractPointcloud reference current) current
            (weights_ this) (length current) ev1 = Fault OutOfRange) as Hbody.
  { unfold computeError_body. apply at_index_Ok in Hp. rewrite Hp. simpl.
    unfold at_index. by rewrite lookup_ge_None_2 by lia. }
  rewrite seq_app, for_each_app, Hloop. simpl. by rewrite Hbody.
Qed.
End ErrorPointToPlaneMore.

(** ** Further properties of the engine's records *)

Section IcpMore.
Context {Dtype : Type} `{Scalar Dtype}.
Context {PointSource PointTarget Error_ MEstimator : Type}.

Implicit Types (r : IcpResults_ Dtype PointSource).
Implicit Types (p q : IcpParameters_ Dtype).
Implicit Types (this : Icp Dtype PointSource PointTarget Error_ MEstimator).

(** X13. [getFinalError()] returns a value exactly when the history has a
    last element, and then that element. On an empty history the index
    [size() - 1] is the largest [size_t]: the access is out of range. *)
Theorem getFinalError_iff r :
  (∀ e, getFinalError r = Ok e ↔ last (registrationError r) = Some e) ∧
  (getFinalError r = Fault OutOfRange ↔ registrationError r = []).
Proof.
  unfold getFinalError.
  destruct (registrationError r) as [|b l] eqn:Hhistory.
  - unfold at_index. rewrite lookup_nil. split; [|done].
    intros e. split; [done|]. by rewrite last_nil.
  - assert (∀ e, at_index (b :: l) (size_minus_one (length (b :: l))) = Ok e ↔
                 last (b :: l) = Some e) as Hlast.
    { intros e. rewrite at_index_Ok, last_lookup. done. }
    split; [done|]. split; [|done].
    intros Hfault. destruct (proj2 (last_is_Some (b :: l))) as [e He]; [done|].
    apply Hlast in He. congruence.
Qed.

(** X14. [clear()] empties the history and zeroes the transformation, and
    that is all: the pointer to the registered cloud stays. On a cleared
    record [getFinalError()] is out of range and the stream operator
    prints that there are no results; clearing twice is clearing once. *)
Theorem clear_effect r :
  cleared (clear r) ∧
  registeredPointCloud (clear r) = registeredPointCloud r ∧
  clear (clear r) = clear r ∧
  getFinalError (clear r) = Fault OutOfRange ∧
  print_IcpResults (clear r) = Ok [Chars "Icp: No Results!"].
Proof.
  split; [done|]. split; [done|]. split; [done|]. split; [|done].
  unfold getFinalError, at_index. simpl registrationError. by rewrite lookup_nil.
Qed.

Lemma printed_numbers_history (history : list Dtype) :
  printed_numbers (concat ((λ e, [Number e; Chars ", "]) <$> history)) = history.
Proof.
  unfold printed_numbers. induction history as [|e history IH]; [done|].
  simpl. f_equal. exact IH.
Qed.

Lemma printed_history_length (history : list Dtype) :
  length (concat ((λ e, [Number e; Chars ", "]) <$> history)) = 2 * length history.
Proof.
  induction history as [|e history IH]; [done|].
  rewrite fmap_cons, concat_cons, length_app, IH. simpl. lia.
Qed.

Lemma print_IcpResults_Ok r (initial final : Dtype) :
  head (registrationError r) = Some initial →
  last (registrationError r) = Some final →
  (Z.of_nat (length (registrationError r)) ≤ INT_MAX)%Z →
  print_IcpResults r =
    Ok ([ Chars "Initial error: "; Number initial;
          Chars (newline ++ "Final error: "); Number final;
          Chars (newline ++ "Final transformation: " ++ newline);
          Matrix (transformation r);
          Chars (newline ++ "Error history: ") ]
        ++ concat ((λ e, [Number e; Chars ", "]) <$> registrationError r)).
Proof.
  intros Hhead Hlast Hfit.
  assert (getFinalError r = Ok final) as Hfinal.
  { unfold getFinalError. apply at_index_Ok. by apply last_size_minus_one. }
  unfold print_IcpResults.
  case_decide as Hnil; [by rewrite Hnil in Hhead|].
  rewrite head_lookup in Hhead. apply at_index_Ok in Hhead.
  rewrite Hhead, Hfinal. simpl.
  unfold int_of_size. by rewrite decide_True by done.
Qed.



(** X17. [getParameters()] returns what [setParameters] stored, a second
    [setParameters] replaces the first, and [setParameters] leaves the
    clouds, the kd-tree and the Result Record alone. *)
Theorem setParameters_getParameters p q this :
  getParameters (setParameters p this) = p ∧
  setParameters p (setParameters q this) = setParameters p this ∧
  target_ (setParameters p this) = target_ this ∧
  kdtree_ (setParameters p this) = kdtree_ this ∧
  source_ (setParameters p this) = source_ this ∧
  getResults (setParameters p this) = getResults this.
Proof. done. Qed.

(** X18. Whatever setters were called and in whatever order since the
    constructor, the kd-tree is built from the cloud that [target_] holds,
    the two strategy objects are the default-constructed ones, and the
    Result Record is the one of the constructor, with an empty history:
    the stream operator prints that there are no results and
    [getFinalError()] is out of range. *)
Theorem configured_invariant (Error_ctor : Error_) (MEstimator_ctor : MEstimator)
    (indeterminate : nat → Dtype) this :
  configured Error_ctor MEstimator_ctor indeterminate this →
  input_ (kdtree_ this) = target_ this ∧
  err_ this = Error_ctor ∧ mestimator_ this = MEstimator_ctor ∧
  getResults this = IcpResults_ctor indeterminate ∧
  print_IcpResults (getResults this) = Ok [Chars "Icp: No Results!"] ∧
  getFinalError (getResults this) = Fault OutOfRange.
Proof.
  intros Hconf.
  assert (input_ (kdtree_ this) = target_ this ∧
          err_ this = Error_ctor ∧ mestimator_ this = MEstimator_ctor ∧
          getResults this = IcpResults_ctor indeterminate) as (Hk & He & Hm & Hr).
  { induction Hconf as [|param this _ IH|in_ this _ IH|in_ this _ IH];
      [done | exact IH | | exact IH].
    destruct IH as (_ & ? & ? & ?). done. }
  repeat (split; [done|]). rewrite Hr. split; [done|].
  unfold getFinalError, at_index. simpl registrationError. by rewrite lookup_nil.
Qed.
End IcpMore.

(** ** The further properties at concrete inputs *)

(** X1 on the two-point cloud over the integers. *)
Lemma computeJacobian_overwrites_witness :
  current_ kernel_Z = Some cloud_current ∧
  computeJacobian kernel_Z = Ok kernel_Z_jacobian ∧
  J_ kernel_Z_jacobian = {| coeffs := jacobian_row <$> cloud_current; cols := 6 |} ∧
  reference_ kernel_Z_jacobian = reference_ kernel_Z ∧
  current_ kernel_Z_jacobian = current_ kernel_Z ∧
  errorVector_ kernel_Z_jacobian = errorVector_ kernel_Z ∧
  weights_ kernel_Z_jacobian = weights_ kernel_Z.
Proof.
  split; [reflexivity|]. split; [reflexivity|].
  exact (computeJacobian_overwrites kernel_Z kernel_Z_jacobian cloud_current
           eq_refl eq_refl).
Defined.

(** X2 on the same object. *)
Lemma computeJacobian_idempotent_witness :
  computeJacobian kernel_Z = Ok kernel_Z_jacobian ∧
  computeJacobian kernel_Z_jacobian = Ok kernel_Z_jacobian.
Proof.
  split; [reflexivity|].
  exact (computeJacobian_idempotent kernel_Z kernel_Z_jacobian eq_refl).
Defined.

(** X4 with a reference cloud of one point: the second residual is the
    value the vector held. *)
Lemma computeError_keeps_rest_witness :
  computeError substractPointcloud_xyz kernel_Z_short =
    Ok ({| reference_ := Some [mkPointXYZ 1 2 1]%Z; current_ := Some cloud_current;
           errorVector_ := [2; 7]%Z; weights_ := Ones 2 3; J_ := Zero 2 6 |}, []) ∧
  reference_ kernel_Z_short = Some [mkPointXYZ 1 2 1]%Z ∧
  current_ kernel_Z_short = Some cloud_current ∧
  (∀ i, length (substractPointcloud_xyz [mkPointXYZ 1 2 1]%Z cloud_current) ≤ i →
        [2; 7]%Z !! i = errorVector_ kernel_Z_short !! i).
Proof.
  split; [reflexivity|]. split; [reflexivity|]. split; [reflexivity|].
  exact (proj1 (proj2 (computeError_keeps_rest substractPointcloud_xyz
                         kernel_Z_short _ _ _ _ eq_refl eq_refl eq_refl))).
Defined.

(** X5 on the cloud over [double] whose first point lies at infinity. *)
Lemma computeError_logs_iff_witness :
  reference_ kernel_double = Some cloud_reference_double ∧
  current_ kernel_double = Some cloud_current_inf ∧
  ∃ this' log,
    computeError substractPointcloud_xyz kernel_double = Ok (this', log) ∧
    allFinite (errorVector_ this') = false ∧
    log ≠ [] ∧ length log = 10.
Proof.
  split; [reflexivity|]. split; [reflexivity|].
  destruct (computeError substractPointcloud_xyz kernel_double)
    as [[this' log]|f] eqn:Hrun; [|vm_compute in Hrun; discriminate].
  exists this', log. split; [reflexivity|].
  assert (allFinite (errorVector_ this') = false) as Hnan.
  { vm_compute in Hrun. by injection Hrun as <- _. }
  destruct (computeError_logs_iff substractPointcloud_xyz kernel_double this' log
              cloud_reference_double cloud_current_inf Hrun eq_refl eq_refl)
    as [Hiff Hlen].
  split; [exact Hnan|]. split.
  - intros Hnil. apply Hiff in Hnil. congruence.
  - exact (Hlen Hnan).
Defined.

(** X6 on the two-point clouds over the integers. *)
Lemma computeError_idempotent_witness :
  computeError substractPointcloud_xyz kernel_Z = Ok (kernel_Z_residuals, []) ∧
  computeError substractPointcloud_xyz kernel_Z_residuals = Ok (kernel_Z_residuals, []).
Proof.
  split; [reflexivity|].
  exact (computeError_idempotent substractPointcloud_xyz kernel_Z
           kernel_Z_residuals [] eq_refl).
Defined.

(** X7 on the same object. *)
Lemma computeError_computeJacobian_commute_witness :
  computeJacobian kernel_Z = Ok kernel_Z_jacobian ∧
  computeError substractPointcloud_xyz kernel_Z_jacobian = Ok (kernel_Z_both, []) ∧
  ∃ this_e,
    computeError substractPointcloud_xyz kernel_Z = Ok (this_e, []) ∧
    computeJacobian this_e = Ok kernel_Z_both.
Proof.
  split; [reflexivity|]. split; [reflexivity|].
  exact (computeError_computeJacobian_commute substractPointcloud_xyz kernel_Z
           kernel_Z_jacobian kernel_Z_both [] eq_refl eq_refl).
Defined.

(** X8 on the object after the Jacobian and the residuals were computed. *)
Lemma bound_keeps_shape_witness :
  bound substractPointcloud_xyz stale_Z cloud_current kernel_Z_both ∧
  current_ kernel_Z_both = Some cloud_current ∧
  length (errorVector_ kernel_Z_both) = length cloud_current ∧
  weights_ kernel_Z_both = Ones (length cloud_current) 3 ∧
  rows (J_ kernel_Z_both) = length cloud_current ∧ cols (J_ kernel_Z_both) = 6.
Proof.
  assert (bound substractPointcloud_xyz stale_Z cloud_current kernel_Z_both) as Hbound.
  { apply (bound_computeError _ _ _ kernel_Z_jacobian kernel_Z_both []); [|reflexivity].
    apply (bound_computeJacobian _ _ _ kernel_Z); [|reflexivity].
    apply (bound_setInputReference _ _ _ (Some cloud_reference) kernel_Z_current_only).
    apply (bound_setInputCurrent _ _ _ unbound). reflexivity. }
  split; [exact Hbound|].
  exact (bound_keeps_shape substractPointcloud_xyz stale_Z cloud_current
           kernel_Z_both Hbound).
Defined.

(** X9 on the two-point clouds over the integers. *)
Lemma computeError_unit_weights_witness :
  bound substractPointcloud_xyz stale_Z cloud_current kernel_Z ∧
  reference_ kernel_Z = Some cloud_reference ∧
  computeError substractPointcloud_xyz kernel_Z = Ok (kernel_Z_residuals, []) ∧
  ∀ i d c,
    substractPointcloud_xyz cloud_reference cloud_current !! i = Some d →
    cloud_current !! i = Some c →
    errorVector_ kernel_Z_residuals !! i =
      Some (of_int 1 * normal_x c * x d
            + of_int 1 * normal_y c * y d
            + of_int 1 * normal_z c * z d)%D.
Proof.
  assert (bound substractPointcloud_xyz stale_Z cloud_current kernel_Z) as Hbound.
  { apply (bound_setInputReference _ _ _ (Some cloud_reference) kernel_Z_current_only).
    apply (bound_setInputCurrent _ _ _ unbound). reflexivity. }
  split; [exact Hbound|]. split; [reflexivity|]. split; [reflexivity|].
  exact (computeError_unit_weights substractPointcloud_xyz stale_Z kernel_Z
           kernel_Z_residuals [] cloud_reference cloud_current Hbound eq_refl eq_refl).
Defined.


(** X12 on a reference cloud of no point. *)
Lemma computeError_empty_difference_witness :
  reference_ kernel_Z_no_reference_point = Some [] ∧
  current_ kernel_Z_no_reference_point = Some cloud_current ∧
  substractPointcloud_xyz [] cloud_current = [] ∧
  allFinite (errorVector_ kernel_Z_no_reference_point) = true ∧
  computeError substractPointcloud_xyz kernel_Z_no_reference_point =
    Ok (kernel_Z_no_reference_point, []).
Proof.
  split; [reflexivity|]. split; [reflexivity|].
  split; [reflexivity|]. split; [reflexivity|].
  exact (computeError_empty_difference substractPointcloud_xyz
           kernel_Z_no_reference_point [] cloud_current
           eq_refl eq_refl eq_refl eq_refl).
Defined.


(** X18 on a new engine given a target, a source and parameters. *)
Lemma configured_invariant_witness :
  configured tt tt stale_Z engine_configured ∧
  input_ (kdtree_ engine_configured) = Some cloud_target ∧
  getResults engine_configured = IcpResults_ctor stale_Z ∧
  print_IcpResults (getResults engine_configured) = Ok [Chars "Icp: No Results!"] ∧
  getFinalError (getResults engine_configured) = Fault OutOfRange.
Proof.
  assert (configured tt tt stale_Z engine_configured) as Hconf.
  { apply configured_setParameters, configured_setInputSource,
      configured_setInputTarget, configured_ctor. }
  split; [exact Hconf|].
  destruct (configured_invariant tt tt stale_Z engine_configured Hconf)
    as (Hk & _ & _ & Hr & Hp & Hf).
  split; [exact Hk|]. split; [exact Hr|]. split; [exact Hp | exact Hf].
Defined.

(** X19 with a difference cloud of three points on a current cloud of two. *)
Lemma computeError_out_of_range_witness :
  bound (λ reference _, reference) stale_Z cloud_current
    (setInputReference (Some cloud_target) kernel_Z_current_only) ∧
  length cloud_current < length cloud_target ∧
  computeError (λ reference _, reference)
    (setInputReference (Some cloud_target) kernel_Z_current_only) = Fault OutOfRange.
Proof.
  assert (bound (λ reference _, reference) stale_Z cloud_current
            (setInputReference (Some cloud_target) kernel_Z_current_only)) as Hbound.
  { apply bound_setInputReference.
    apply (bound_setInputCurrent _ _ _ unbound). reflexivity. }
  assert (length cloud_current < length cloud_target) as Hlong.
  { vm_compute. lia. }
  split; [exact Hbound|]. split; [exact Hlong|].
  apply (computeError_out_of_range (λ reference _, reference) stale_Z _
           cloud_target cloud_current Hbound eq_refl Hlong).
  vm_compute. discriminate.
Defined.
